(** * forms-for-devs: validator, schema generator and React exporter

    A shallow embedding of
    - [validateValue] of [components/preview/FormRenderer.tsx] and of its
      older copy [preview/FormRenderer.tsx],
    - [lib/schema-generator.ts] ([fieldToJsonSchema], [generateJsonSchema]),
    - the naming and escaping helpers of [lib/exporters/react-ts.ts],
    over a small model of the ECMAScript values these functions inspect. *)

From Stdlib Require Import String Ascii List Bool ZArith QArith Qround Lia.
From Stdlib Require Import DecimalString DecimalNat Permutation.
Import ListNotations.

Local Open Scope list_scope.
Local Open Scope string_scope.
Local Set Warnings "-register-all".

(** ** ECMAScript values *)

Module Js.

(** A Number: NaN, the infinities, or a finite value.  Every finite double
    is a rational, and the validator only compares numbers and asks whether
    they are integral, so a finite Number is kept as the rational it
    denotes (negative zero is identified with zero). *)
Inductive Num : Type :=
| NaN
| PInf
| NInf
| Fin (q : Q).

(** JSON-like runtime values: what [JSON.parse] and form inputs produce. *)
Inductive Val : Type :=
| VUndefined
| VNull
| VBool (b : bool)
| VNum (n : Num)
| VStr (s : string)
| VArr (items : list Val)
| VObj (props : list (string * Val)).

Definition of_Z (z : Z) : Num := Fin (inject_Z z).
Definition of_nat (n : nat) : Num := of_Z (Z.of_nat n).

(** [Number.isNaN] *)
Definition isNaN (n : Num) : bool :=
  match n with NaN => true | _ => false end.

(** [Number.isInteger]: finite and without fractional part. *)
Definition isInteger (n : Num) : bool :=
  match n with
  | Fin q => Qeq_bool q (inject_Z (Qfloor q))
  | _ => false
  end.

(** Number::lessThan, with "undefined" (a NaN operand) read as false, as
    the [<] and [>] operators do. *)
Definition lt (a b : Num) : bool :=
  match a, b with
  | NaN, _ | _, NaN => false
  | PInf, _ => false
  | _, NInf => false
  | NInf, _ => true
  | _, PInf => true
  | Fin x, Fin y => negb (Qle_bool y x)
  end.

(** [a <= b] on Numbers (false when either is NaN). *)
Definition le (a b : Num) : bool :=
  match a, b with
  | NaN, _ | _, NaN => false
  | NInf, _ => true
  | _, PInf => true
  | PInf, _ => false
  | _, NInf => false
  | Fin x, Fin y => Qle_bool x y
  end.

(** [x == null], i.e. [x] is [undefined] or [null]. *)
Definition nullish (v : Val) : bool :=
  match v with VUndefined | VNull => true | _ => false end.

(** [typeof v === "object" && v !== null] ([isRecord] of the generator):
    arrays are records too. *)
Definition is_object (v : Val) : bool :=
  match v with VArr _ | VObj _ => true | _ => false end.

Fixpoint assoc (k : string) (props : list (string * Val)) : Val :=
  match props with
  | [] => VUndefined
  | (k', v) :: rest => if String.eqb k k' then v else assoc k rest
  end.

(** [v[k]] for a [v] that is not nullish and a key [k] among the rule and
    option keys the code reads ([minLength], [maxLength], [pattern],
    [integer], [min], [max], [options], [value]): none of them is an own
    or inherited property of a primitive or of an array. *)
Definition get (v : Val) (k : string) : Val :=
  match v with
  | VObj props => assoc k props
  | _ => VUndefined
  end.

(** Errors a completion can carry. *)
Inductive Error : Type := TypeError.

(** The outcome of evaluating an expression or a call: a value, or a
    thrown error. *)
Inductive Completion (A : Type) : Type :=
| Normal (a : A)
| Throw (e : Error).
Arguments Normal {A} a.
Arguments Throw {A} e.

Definition bind {A B} (c : Completion A) (k : A -> Completion B)
  : Completion B :=
  match c with
  | Normal a => k a
  | Throw e => Throw e
  end.

(** [v.k]: reading a property of [undefined] or [null] throws. *)
Definition member (v : Val) (k : string) : Completion Val :=
  if nullish v then Throw TypeError else Normal (get v k).

(** [v?.k] *)
Definition member_opt (v : Val) (k : string) : Val :=
  if nullish v then VUndefined else get v k.

(** The parts of the host the code calls and this development does not
    fix: the numeric reading of a string ([StringToNumber]), the printing
    of a Number, and the regular-expression engine.  [RegExp_new] is
    [None] where [new RegExp(p)] throws a [SyntaxError]. *)
Record Host : Type := {
  StringToNumber : string -> Num;
  NumberToString : Num -> string;
  RegExp : Type;
  RegExp_new : string -> option RegExp;
  RegExp_test : RegExp -> string -> bool;
}.

Fixpoint join (sep : string) (parts : list string) : string :=
  match parts with
  | [] => EmptyString
  | [p] => p
  | p :: rest => p ++ sep ++ join sep rest
  end.

Section Coercions.
Context (host : Host).

(** ToString.  An array prints its elements joined by commas, with
    [undefined] and [null] elements printed as nothing; a plain object
    prints as [[object Object]]. *)
Fixpoint ToString (v : Val) : string :=
  match v with
  | VUndefined => "undefined"
  | VNull => "null"
  | VBool true => "true"
  | VBool false => "false"
  | VNum n => NumberToString host n
  | VStr s => s
  | VArr items =>
      join "," (map (fun x => if nullish x then EmptyString else ToString x) items)
  | VObj _ => "[object Object]"
  end.

(** The numeric reading of a string: the empty string reads as zero, any
    other string is left to the host. *)
Definition string_to_number (s : string) : Num :=
  match s with
  | EmptyString => of_Z 0
  | _ => StringToNumber host s
  end.

(** ToNumber ([Number(v)]).  Objects and arrays go through their string
    form (ToPrimitive with hint number falls back to [toString]). *)
Definition ToNumber (v : Val) : Num :=
  match v with
  | VUndefined => NaN
  | VNull => of_Z 0
  | VBool true => of_Z 1
  | VBool false => of_Z 0
  | VNum n => n
  | VStr s => string_to_number s
  | VArr _ | VObj _ => string_to_number (ToString v)
  end.

(** ToBoolean *)
Definition truthy (v : Val) : bool :=
  match v with
  | VUndefined | VNull => false
  | VBool b => b
  | VNum NaN => false
  | VNum (Fin q) => negb (Qeq_bool q 0)
  | VNum _ => true
  | VStr s => negb (String.eqb s EmptyString)
  | VArr _ | VObj _ => true
  end.

(** [n < v] and [n > v] for a Number [n]: the other operand is coerced
    with ToNumber. *)
Definition num_lt (n : Num) (v : Val) : bool := lt n (ToNumber v).
Definition num_gt (n : Num) (v : Val) : bool := lt (ToNumber v) n.
End Coercions.

End Js.

Import Js.

Declare Scope completion_scope.
Delimit Scope completion_scope with completion.
Notation "x <- c ;; k" := (Js.bind c (fun x => k))
  (at level 61, c at next level, right associativity) : completion_scope.

(** ** lib/form-types.ts *)

(** [Field].  [type] is the string found at run time (the generator keeps a
    [default] branch for strings outside [FieldType]); [required] is absent
    or a boolean; [rules] is the value stored under the key, [VUndefined]
    when the key is absent: every reader treats it as a bag of unknown
    shape. *)
Record Field : Type := {
  id : string;
  name : string;
  label : string;
  type : string;
  required : option bool;
  helperText : option string;
  placeholder : option string;
  rules : Val;
}.

Record FormDefinition : Type := {
  form_id : string;
  title : string;
  description : option string;
  version : Z;
  fields : list Field;
  createdAtISO : string;
  updatedAtISO : string;
}.

(** [if (field.required)] *)
Definition is_required (field : Field) : bool :=
  match required field with
  | Some true => true
  | _ => false
  end.

(** [field.type === "text" || field.type === "textarea" || field.type === "email"] *)
Definition is_text_like (t : string) : bool :=
  String.eqb t "text" || String.eqb t "textarea" || String.eqb t "email".

(** [field.type === "checkbox" ? value !== true : value === '' || value == null] *)
Definition isEmpty (field : Field) (value : Val) : bool :=
  if String.eqb (type field) "checkbox"
  then match value with VBool true => false | _ => true end
  else match value with VStr EmptyString => true | _ => nullish value end.

(** The three messages that carry no rule value. *)
Definition msg_required (field : Field) : string :=
  label field ++ " is required.".
Definition msg_format (field : Field) : string :=
  label field ++ " format is invalid.".
Definition msg_number (field : Field) : string :=
  label field ++ " must be a number.".
Definition msg_whole (field : Field) : string :=
  label field ++ " must be a whole number.".

(** ** components/preview/FormRenderer.tsx *)

Module Components.
Section Validator.
Context (host : Host).
Local Open Scope completion_scope.

(** The body of [if (typeof value === "string") { ... }].  Each rule is read
    with a plain member access on [rules], which throws when [rules] is
    [undefined] or [null]; a statement reads the same property up to three
    times and gets the same value each time, so it is bound once. *)
Definition text_checks (field : Field) (rules : Val) (value : string)
  : Completion (option string) :=
  minLength <- member rules "minLength" ;;
  if negb (nullish minLength)
     && num_lt host (of_nat (String.length value)) minLength
  then Normal (Some (label field ++ " must be at least "
                       ++ ToString host minLength ++ " characters."))
  else
  maxLength <- member rules "maxLength" ;;
  if negb (nullish maxLength)
     && num_gt host (of_nat (String.length value)) maxLength
  then Normal (Some (label field ++ " must be at most "
                       ++ ToString host maxLength ++ " characters."))
  else
  pattern <- member rules "pattern" ;;
  if truthy pattern then
    match RegExp_new host (ToString host pattern) with
    | Some re =>
        if negb (RegExp_test host re value)
        then Normal (Some (msg_format field))
        else Normal None
    | None => Normal None  (* catch: an invalid pattern does not block *)
    end
  else Normal None.

(** The body of [if (value !== '' && value != null) { ... }]. *)
Definition number_checks (field : Field) (rules : Val) (value : Val)
  : Completion (option string) :=
  let num := ToNumber host value in
  if isNaN num then Normal (Some (msg_number field))
  else
  integer <- member rules "integer" ;;
  if truthy integer && negb (isInteger num)
  then Normal (Some (msg_whole field))
  else
  min <- member rules "min" ;;
  if negb (nullish min) && num_lt host num min
  then Normal (Some (label field ++ " must be at least "
                       ++ ToString host min ++ "."))
  else
  max <- member rules "max" ;;
  if negb (nullish max) && num_gt host num max
  then Normal (Some (label field ++ " must be at most "
                       ++ ToString host max ++ "."))
  else Normal None.

(** [validateValue]: [Normal (Some m)] is the message [m], [Normal None]
    is [null]. *)
Definition validateValue (field : Field) (value : Val)
  : Completion (option string) :=
  if is_required field && isEmpty field value
  then Normal (Some (msg_required field))
  else
  let rules := rules field in
  text <- (if is_text_like (type field)
           then match value with
                | VStr s => text_checks field rules s
                | _ => Normal None
                end
           else Normal None) ;;
  match text with
  | Some m => Normal (Some m)
  | None =>
      if String.eqb (type field) "number"
      then if negb (match value with VStr EmptyString => true | _ => false end)
              && negb (nullish value)
           then number_checks field rules value
           else Normal None
      else Normal None
  end.

End Validator.
End Components.

(** ** preview/FormRenderer.tsx *)

Module Preview.
Section Validator.
Context (host : Host).
Local Open Scope completion_scope.

(** As in [Components], with every rule read through [rules?.key]. *)
Definition text_checks (field : Field) (rules : Val) (value : string)
  : Completion (option string) :=
  let minLength := member_opt rules "minLength" in
  if negb (nullish minLength)
     && num_lt host (of_nat (String.length value)) minLength
  then Normal (Some (label field ++ " must be at least "
                       ++ ToString host minLength ++ " characters."))
  else
  let maxLength := member_opt rules "maxLength" in
  if negb (nullish maxLength)
     && num_gt host (of_nat (String.length value)) maxLength
  then Normal (Some (label field ++ " must be at most "
                       ++ ToString host maxLength ++ " characters."))
  else
  let pattern := member_opt rules "pattern" in
  if truthy pattern then
    match RegExp_new host (ToString host pattern) with
    | Some re =>
        if negb (RegExp_test host re value)
        then Normal (Some (msg_format field))
        else Normal None
    | None => Normal None
    end
  else Normal None.

Definition number_checks (field : Field) (rules : Val) (value : Val)
  : Completion (option string) :=
  let num := ToNumber host value in
  if isNaN num then Normal (Some (msg_number field))
  else
  let integer := member_opt rules "integer" in
  if truthy integer && negb (isInteger num)
  then Normal (Some (msg_whole field))
  else
  let min := member_opt rules "min" in
  if negb (nullish min) && num_lt host num min
  then Normal (Some (label field ++ " must be at least "
                       ++ ToString host min ++ "."))
  else
  let max := member_opt rules "max" in
  if negb (nullish max) && num_gt host num max
  then Normal (Some (label field ++ " must be at most "
                       ++ ToString host max ++ "."))
  else Normal None.

Definition validateValue (field : Field) (value : Val)
  : Completion (option string) :=
  if is_required field && isEmpty field value
  then Normal (Some (msg_required field))
  else
  let rules := rules field in
  text <- (if is_text_like (type field)
           then match value with
                | VStr s => text_checks field rules s
                | _ => Normal None
                end
           else Normal None) ;;
  match text with
  | Some m => Normal (Some m)
  | None =>
      if String.eqb (type field) "number"
      then if negb (match value with VStr EmptyString => true | _ => false end)
              && negb (nullish value)
           then number_checks field rules value
           else Normal None
      else Normal None
  end.

End Validator.
End Preview.

(** ** String helpers shared by the generator and the exporter

    A string is a sequence of code units; [ascii] covers the code units
    below 256. *)

Module Str.

(** White space and line terminators below 256: what [\s] matches and what
    [trim] removes (tab, LF, VT, FF, CR, space, no-break space). *)
Definition is_space (c : ascii) : bool :=
  let n := nat_of_ascii c in
  ((9 <=? n) && (n <=? 13) || (n =? 32) || (n =? 160))%nat.

Definition is_upper (c : ascii) : bool :=
  let n := nat_of_ascii c in ((65 <=? n) && (n <=? 90))%nat.
Definition is_lower (c : ascii) : bool :=
  let n := nat_of_ascii c in ((97 <=? n) && (n <=? 122))%nat.
Definition is_digit (c : ascii) : bool :=
  let n := nat_of_ascii c in ((48 <=? n) && (n <=? 57))%nat.
Definition is_alpha (c : ascii) : bool := is_upper c || is_lower c.
Definition is_alnum (c : ascii) : bool := is_alpha c || is_digit c.

Fixpoint trimStart (s : string) : string :=
  match s with
  | String c t => if is_space c then trimStart t else s
  | EmptyString => EmptyString
  end.

Fixpoint trimEnd (s : string) : string :=
  match s with
  | String c t =>
      match trimEnd t with
      | EmptyString => if is_space c then EmptyString else String c EmptyString
      | t' => String c t'
      end
  | EmptyString => EmptyString
  end.

(** [String.prototype.trim] *)
Definition trim (s : string) : string := trimEnd (trimStart s).

(** Every code unit of [s] satisfies [p]. *)
Fixpoint all (p : ascii -> bool) (s : string) : bool :=
  match s with
  | String c t => p c && all p t
  | EmptyString => true
  end.

(** [s.replace(/[class]/g, by)] for a one-character class. *)
Fixpoint replace_each (cls : ascii -> bool) (by_ : string) (s : string)
  : string :=
  match s with
  | String c t =>
      if cls c then by_ ++ replace_each cls by_ t
      else String c (replace_each cls by_ t)
  | EmptyString => EmptyString
  end.

End Str.

(** ** lib/schema-generator.ts *)

Module SchemaGenerator.

(** [StringSchema]; its [type] is the constant ["string"]. *)
Record StringSchema : Type := {
  format : option string;
  minLength : option Num;
  maxLength : option Num;
  pattern : option string;
  enum : option (list string);
}.

(** [NumberSchema]; [number_type] is its [type], ["number"] or
    ["integer"]. *)
Record NumberSchema : Type := {
  number_type : string;
  minimum : option Num;
  maximum : option Num;
}.

(** [JsonSchemaProperty]; [BooleanSchema] is [{ type: "boolean" }]. *)
Inductive JsonSchemaProperty : Type :=
| OfString (s : StringSchema)
| OfNumber (s : NumberSchema)
| OfBoolean.

(** The [type] key of a property schema. *)
Definition property_type (p : JsonSchemaProperty) : string :=
  match p with
  | OfString _ => "string"
  | OfNumber s => number_type s
  | OfBoolean => "boolean"
  end.

(** An object used as a dictionary: keys in insertion order, an assignment
    to a key already there replaces its value in place.  (ECMAScript lists
    keys that are array indices first; only lookups and the set of keys
    matter below.)  This is what an object does for keys that are neither
    array indices nor [__proto__], among them every name the builder
    accepts; the facts that depend on the order or on the presence of a
    key are stated for such names. *)
Definition Dict (A : Type) : Type := list (string * A).

Fixpoint dict_set {A} (k : string) (v : A) (d : Dict A) : Dict A :=
  match d with
  | [] => [(k, v)]
  | (k', v') :: rest =>
      if String.eqb k k' then (k, v) :: rest
      else (k', v') :: dict_set k v rest
  end.

Fixpoint dict_get {A} (k : string) (d : Dict A) : option A :=
  match d with
  | [] => None
  | (k', v) :: rest => if String.eqb k k' then Some v else dict_get k rest
  end.

(** [JsonSchema]; [type] is the constant ["object"]. *)
Record JsonSchema : Type := {
  schema_uri : string;   (* $schema *)
  schema_title : string; (* title *)
  additionalProperties : bool;
  properties : Dict JsonSchemaProperty;
  schema_required : option (list string);  (* required?: string[] *)
}.

Definition isRecord (value : Val) : bool := is_object value.

Definition readNumber (obj : Val) (key : string) : option Num :=
  match get obj key with VNum n => Some n | _ => None end.

Definition readBoolean (obj : Val) (key : string) : option bool :=
  match get obj key with VBool b => Some b | _ => None end.

Definition readString (obj : Val) (key : string) : option string :=
  match get obj key with VStr s => Some s | _ => None end.

Definition readOptionsValues (rules : Val) : list string :=
  if negb (isRecord rules) then []
  else
    match get rules "options" with
    | VArr rawOptions =>
        let values :=
          map (fun opt => if isRecord opt then get opt "value" else VUndefined)
              rawOptions in
        flat_map (fun v => match v with VStr s => [s] | _ => [] end) values
    | _ => []
    end.

Definition emptyString : StringSchema :=
  {| format := None; minLength := None; maxLength := None;
     pattern := None; enum := None |}.

(** The [text]/[textarea]/[email] case. *)
Definition textToJsonSchema (field : Field) : StringSchema :=
  let rules := rules field in
  let fmt := if String.eqb (type field) "email" then Some "email" else None in
  if isRecord rules then
    let pat := readString rules "pattern" in
    {| format := fmt;
       minLength := readNumber rules "minLength";
       maxLength := readNumber rules "maxLength";
       pattern :=
         match pat with
         | Some p =>
             if negb (String.eqb p EmptyString) && negb (String.eqb (Str.trim p) EmptyString)
             then Some p else None
         | None => None
         end;
       enum := None |}
  else
    {| format := fmt; minLength := None; maxLength := None;
       pattern := None; enum := None |}.

(** The [number] case. *)
Definition numberToJsonSchema (field : Field) : NumberSchema :=
  let rules := rules field in
  if isRecord rules then
    {| number_type :=
         match readBoolean rules "integer" with
         | Some true => "integer"
         | _ => "number"
         end;
       minimum := readNumber rules "min";
       maximum := readNumber rules "max" |}
  else {| number_type := "number"; minimum := None; maximum := None |}.

Definition fieldToJsonSchema (field : Field) : JsonSchemaProperty :=
  let t := type field in
  if is_text_like t then OfString (textToJsonSchema field)
  else if String.eqb t "number" then OfNumber (numberToJsonSchema field)
  else if String.eqb t "date" then
    OfString {| format := Some "date"; minLength := None; maxLength := None;
                pattern := None; enum := None |}
  else if String.eqb t "select" then
    OfString {| format := None; minLength := None; maxLength := None;
                pattern := None;
                enum := Some (readOptionsValues (rules field)) |}
  else if String.eqb t "checkbox" then OfBoolean
  else OfString emptyString.

(** The [for] loop of [generateJsonSchema]: one step per field, on the pair
    of [properties] and [required]. *)
Definition collect_field
  (acc : Dict JsonSchemaProperty * list string) (field : Field)
  : Dict JsonSchemaProperty * list string :=
  let '(properties, required) := acc in
  (dict_set (name field) (fieldToJsonSchema field) properties,
   if is_required field then (required ++ [name field])%list else required).

Definition generateJsonSchema (form : FormDefinition) : JsonSchema :=
  let '(properties, required) := fold_left collect_field (fields form) ([], []) in
  {| schema_uri := "https://json-schema.org/draft/2020-12/schema";
     schema_title := title form;
     additionalProperties := false;
     properties := properties;
     schema_required :=
       if (0 <? List.length required)%nat then Some required else None |}.

End SchemaGenerator.

(** ** lib/exporters/react-ts.ts *)

Module ReactTs.
Import Str.

Definition underscore : ascii := "_"%char.
Definition hyphen : ascii := "-"%char.
Definition backslash : ascii := "\"%char.
Definition backtick : ascii := "`"%char.
Definition dollar : ascii := "$"%char.
Definition lbrace : ascii := "{"%char.

(** The class [[A-Za-z0-9_\-\s]]. *)
Definition is_kept (c : ascii) : bool :=
  is_alnum c || Ascii.eqb c underscore || Ascii.eqb c hyphen || is_space c.

(** The class [[_\-]]. *)
Definition is_joiner (c : ascii) : bool :=
  Ascii.eqb c underscore || Ascii.eqb c hyphen.

Definition safeIdentifier (input : string) : string :=
  let cleaned := trim (replace_each (fun c => negb (is_kept c)) " " input) in
  if (0 <? String.length cleaned)%nat then cleaned else "GeneratedForm".

(** [s.replace(/[_\-]+/g, " ")]: each maximal run becomes one space;
    [in_run] says that the previous code unit belonged to a run. *)
Fixpoint replace_runs (in_run : bool) (s : string) : string :=
  match s with
  | String c t =>
      if is_joiner c
      then if in_run then replace_runs true t
           else String " " (replace_runs true t)
      else String c (replace_runs false t)
  | EmptyString => EmptyString
  end.

(** [s.split(/\s+/)]: [cur] is the piece being read, [in_sep] says that the
    previous code unit belonged to a separator.  Leading and trailing
    separators give empty pieces, as in ECMAScript. *)
Fixpoint split_ws (in_sep : bool) (cur : string) (s : string) : list string :=
  match s with
  | String c t =>
      if is_space c
      then if in_sep then split_ws true cur t
           else cur :: split_ws true EmptyString t
      else split_ws false (cur ++ String c EmptyString) t
  | EmptyString => [cur]
  end.

(** [toUpperCase] of one code unit.  Only the ASCII letters are mapped: the
    parts [toPascalCase] capitalises come out of [safeIdentifier], which
    leaves no other letter (see [safeIdentifier_kept]). *)
Definition toUpperCase1 (c : ascii) : ascii :=
  if is_lower c then ascii_of_nat (nat_of_ascii c - 32) else c.

(** [part.charAt(0).toUpperCase() + part.slice(1)] *)
Definition capitalize (part : string) : string :=
  match part with
  | String c t => String (toUpperCase1 c) t
  | EmptyString => EmptyString
  end.

Definition nonempty (s : string) : bool :=
  match s with EmptyString => false | _ => true end.

Definition toPascalCase (input : string) : string :=
  String.concat EmptyString
    (map capitalize
       (filter nonempty (split_ws false EmptyString (replace_runs false input)))).

(** [/^[A-Za-z_]/.test(s)] *)
Definition starts_ident (s : string) : bool :=
  match s with
  | String c _ => is_alpha c || Ascii.eqb c underscore
  | EmptyString => false
  end.

Definition makeSafeComponentName (input : string) : string :=
  let base := toPascalCase (safeIdentifier input) in
  let fallback :=
    if (0 <? String.length base)%nat then base else "GeneratedForm" in
  if starts_ident fallback then fallback else "Form" ++ fallback.

(** [s.replace(/\$\{/g, "\\${")] *)
Fixpoint replace_dollar_brace (s : string) : string :=
  match s with
  | String c t =>
      if Ascii.eqb c dollar then
        match t with
        | String c' t' =>
            if Ascii.eqb c' lbrace
            then String backslash
                   (String dollar (String lbrace (replace_dollar_brace t')))
            else String c (replace_dollar_brace t)
        | EmptyString => String c EmptyString
        end
      else String c (replace_dollar_brace t)
  | EmptyString => EmptyString
  end.

Definition escapeTemplateString (input : string) : string :=
  replace_dollar_brace
    (replace_each (Ascii.eqb backtick) (String backslash (String backtick EmptyString))
       (replace_each (Ascii.eqb backslash)
          (String backslash (String backslash EmptyString)) input)).

(** [a || b] on strings: the first if it is not empty. *)
Definition or_else (a b : string) : string :=
  if nonempty a then a else b.

(** The values [generateReactTsComponent] splices into its template:
    [componentName], [title] and [description]. *)
Definition componentName (form : FormDefinition) : string :=
  makeSafeComponentName
    (or_else (form_id form) (or_else (title form) "GeneratedForm")).

Definition embedded_title (form : FormDefinition) : string :=
  escapeTemplateString (title form).

Definition embedded_description (form : FormDefinition) : string :=
  match description form with
  | Some d => if nonempty d then escapeTemplateString d else EmptyString
  | None => EmptyString
  end.

(** *** Reading a template literal

    [template_ok esc s]: scanning the text [s] as the inside of a template
    literal ([esc] says that the previous code unit was an unpaired
    backslash) meets no backtick that would close the literal, no [${] that
    would open a substitution, and no backslash left without the code unit
    it escapes. *)
Fixpoint template_ok (esc : bool) (s : string) : bool :=
  match s with
  | String c t =>
      if esc then template_ok false t
      else if Ascii.eqb c backslash then template_ok true t
      else if Ascii.eqb c backtick then false
      else if Ascii.eqb c dollar then
        match t with
        | String c' _ => negb (Ascii.eqb c' lbrace) && template_ok false t
        | EmptyString => true
        end
      else template_ok false t
  | EmptyString => negb esc
  end.

(** The string a template literal with text [s] denotes, for the escapes
    [escapeTemplateString] writes: a backslash stands for the code unit
    after it. *)
Fixpoint template_value (s : string) : string :=
  match s with
  | String c t =>
      if Ascii.eqb c backslash then
        match t with
        | String c' t' => String c' (template_value t')
        | EmptyString => EmptyString
        end
      else String c (template_value t)
  | EmptyString => EmptyString
  end.

End ReactTs.

(** ** A host to run the examples on

    [Fixture.host] answers as ECMAScript does on the inputs the examples
    below use: decimal literals (optional sign, digits, optional fraction)
    and blank strings for [StringToNumber]; integral Numbers, NaN and the
    infinities for [NumberToString]; for the regular expressions, patterns
    made of letters and digits (matched as a substring) and patterns with a
    character class left open, which do not compile.  Elsewhere its answers
    are placeholders. *)

Module Fixture.
Import Str.

Fixpoint digits_value (acc : Z) (s : string) : option Z :=
  match s with
  | String c t =>
      if is_digit c
      then digits_value (10 * acc + Z.of_nat (nat_of_ascii c - 48)) t
      else None
  | EmptyString => Some acc
  end.

(** The text before the first dot, and the text after it if there is one. *)
Fixpoint split_dot (s : string) : string * option string :=
  match s with
  | String c t =>
      if Ascii.eqb c "."%char then (EmptyString, Some t)
      else let '(a, b) := split_dot t in (String c a, b)
  | EmptyString => (EmptyString, None)
  end.

Definition unsigned_decimal (s : string) : Num :=
  let '(ip, fp) := split_dot s in
  let fp := match fp with Some f => f | None => EmptyString end in
  if (String.length ip + String.length fp =? 0)%nat then NaN
  else
    match digits_value 0 ip, digits_value 0 fp with
    | Some i, Some f =>
        let scale := Pos.pow 10 (Pos.of_nat (String.length fp)) in
        if (String.length fp =? 0)%nat then Fin (inject_Z i)
        else Fin (Qred (Qmake (i * Zpos scale + f) scale))
    | _, _ => NaN
    end.

Definition negate (n : Num) : Num :=
  match n with
  | NaN => NaN
  | PInf => NInf
  | NInf => PInf
  | Fin q => Fin (Qred (Qopp q))
  end.

Definition StringToNumber (s : string) : Num :=
  match trim s with
  | EmptyString => of_Z 0
  | String c t =>
      if Ascii.eqb c "-"%char then negate (unsigned_decimal t)
      else if Ascii.eqb c "+"%char then unsigned_decimal t
      else unsigned_decimal (String c t)
  end.

Fixpoint digits_of_pos (fuel : nat) (p : Z) (acc : string) : string :=
  match fuel with
  | O => acc
  | S fuel' =>
      let d := ascii_of_nat (48 + Z.to_nat (p mod 10)) in
      if (p <? 10)%Z then String d acc
      else digits_of_pos fuel' (p / 10) (String d acc)
  end.

Definition string_of_Z (z : Z) : string :=
  let body := digits_of_pos (S (Z.to_nat (Z.log2 (Z.abs z)))) (Z.abs z) EmptyString in
  if (z <? 0)%Z then String "-"%char body else body.

Definition NumberToString (n : Num) : string :=
  match n with
  | NaN => "NaN"
  | PInf => "Infinity"
  | NInf => "-Infinity"
  | Fin q => string_of_Z (Qfloor q)
  end.

(** Does [p] occur in [s]? *)
Fixpoint occurs (p s : string) : bool :=
  String.prefix p s
  || match s with
     | String _ t => occurs p t
     | EmptyString => false
     end.

Fixpoint class_open (in_class : bool) (s : string) : bool :=
  match s with
  | String c t =>
      if in_class then class_open (negb (Ascii.eqb c "]"%char)) t
      else class_open (Ascii.eqb c "["%char) t
  | EmptyString => in_class
  end.

Definition RegExp_new (p : string) : option string :=
  if class_open false p then None else Some p.

Definition host : Host :=
  {| Js.StringToNumber := StringToNumber;
     Js.NumberToString := NumberToString;
     Js.RegExp := string;
     Js.RegExp_new := RegExp_new;
     Js.RegExp_test := occurs |}.

End Fixture.

(** Sample fields. *)
Definition mkField (name label type : string) (required : option bool)
  (rules : Val) : Field :=
  {| id := name; name := name; label := label; type := type;
     required := required; helperText := None; placeholder := None;
     rules := rules |}.

Definition mkForm (title : string) (fields : list Field) : FormDefinition :=
  {| form_id := EmptyString; title := title; description := None;
     version := 1; fields := fields;
     createdAtISO := "2024-01-01T00:00:00.000Z";
     updatedAtISO := "2024-01-01T00:00:00.000Z" |}.

(** ** Vocabulary of the properties *)

(** An empty value for a field of type [t]: anything but [true] for a
    checkbox, the empty string or a nullish value otherwise. *)
Definition empty_for (t : string) (value : Val) : Prop :=
  (t = "checkbox" /\ value <> VBool true)
  \/ (t <> "checkbox"
      /\ (value = VStr EmptyString \/ value = VNull \/ value = VUndefined)).

(** [n] respects the lower bound [bound] (inclusive); an absent bound is
    respected by every number. *)
Definition lower_ok (host : Host) (bound : Val) (n : Num) : bool :=
  nullish bound || le (ToNumber host bound) n.

(** [n] respects the upper bound [bound] (inclusive). *)
Definition upper_ok (host : Host) (bound : Val) (n : Num) : bool :=
  nullish bound || le n (ToNumber host bound).

(** The messages of the length rules, for a bound [n]. *)
Definition msg_min_length (host : Host) (field : Field) (n : Val) : string :=
  label field ++ " must be at least " ++ ToString host n ++ " characters.".

(** A select option [{ label, value }]. *)
Definition mkOption (lv : string * string) : Val :=
  VObj [("label", VStr (fst lv)); ("value", VStr (snd lv))].

(** The [value] of an option that is an object with a string [value]. *)
Definition option_value (opt : Val) : option string :=
  match opt with
  | VObj props =>
      match assoc "value" props with
      | VStr s => Some s
      | _ => None
      end
  | _ => None
  end.

(** The values of the well-formed options of a list, in order. *)
Fixpoint option_values (opts : list Val) : list string :=
  match opts with
  | [] => []
  | o :: rest =>
      match option_value o with
      | Some s => s :: option_values rest
      | None => option_values rest
      end
  end.

(** The rule keys that belong to a field type. *)
Definition relevant_keys (t : string) : list string :=
  if is_text_like t then ["minLength"; "maxLength"; "pattern"]
  else if String.eqb t "number" then ["integer"; "min"; "max"]
  else if String.eqb t "select" then ["options"]
  else [].

(** The keys a property schema may carry for a field type: a text-like
    field has no [enum], [minimum] or [maximum]; a number field has only
    [type], [minimum] and [maximum]. *)
Definition own_keys_only (t : string) (p : SchemaGenerator.JsonSchemaProperty)
  : Prop :=
  if is_text_like t then
    exists s, p = SchemaGenerator.OfString s /\ SchemaGenerator.enum s = None
  else if String.eqb t "number" then exists s, p = SchemaGenerator.OfNumber s
  else True.

(** None of the text rules is set. *)
Definition no_text_rules (rules : Val) : Prop :=
  get rules "minLength" = VUndefined
  /\ get rules "maxLength" = VUndefined
  /\ get rules "pattern" = VUndefined.

(** [{ type: "string", format: "email" }] *)
Definition email_schema : SchemaGenerator.JsonSchemaProperty :=
  SchemaGenerator.OfString
    {| SchemaGenerator.format := Some "email";
       SchemaGenerator.minLength := None;
       SchemaGenerator.maxLength := None;
       SchemaGenerator.pattern := None;
       SchemaGenerator.enum := None |}.

(** What [escapeTemplateString] writes for the code unit [c] followed by
    the text [t]. *)
Definition escaped_unit (c : ascii) (t : string) : string :=
  if Ascii.eqb c ReactTs.backslash
  then String ReactTs.backslash (String ReactTs.backslash EmptyString)
  else if Ascii.eqb c ReactTs.backtick
  then String ReactTs.backslash (String ReactTs.backtick EmptyString)
  else if Ascii.eqb c ReactTs.dollar
  then match t with
       | String c' _ =>
           if Ascii.eqb c' ReactTs.lbrace
           then String ReactTs.backslash (String ReactTs.dollar EmptyString)
           else String c EmptyString
       | EmptyString => String c EmptyString
       end
  else String c EmptyString.

(** A code unit an identifier may contain. *)
Definition is_ident_char (c : ascii) : bool :=
  Str.is_alnum c || Ascii.eqb c ReactTs.underscore.

(** A piece of text that can sit inside a template literal. *)
Definition template_safe (s : string) : Prop :=
  ReactTs.template_ok false s = true.

(** The fields used as inputs below. *)
Definition nameField : Field := mkField "name" "Name" "text" None VUndefined.
Definition emailField : Field :=
  mkField "email" "Email" "email" (Some true) VUndefined.
Definition consentField : Field :=
  mkField "email" "Consent" "checkbox" None VUndefined.
Definition ageField : Field :=
  mkField "age" "Age" "number" (Some true)
    (VObj [("integer", VBool true); ("min", VNum (of_Z 18))]).

Definition countField : Field :=
  mkField "count" "Count" "number" (Some true)
    (VObj [("integer", VBool true)]).

(** ** The rest of the renderer: default values and submission *)

Module Renderer.
Import SchemaGenerator.

(** [FormValues]: the dictionary of values, keyed by [field.name]. *)
Definition FormValues : Type := Dict Val.

(** [values[key]], on a dictionary that holds an entry for every key the
    form registers (a key it lacks reads as [undefined]).  A key a field
    assigned is read back as here when it is not [__proto__]. *)
Definition read (values : FormValues) (key : string) : Val :=
  match dict_get key values with
  | Some v => v
  | None => VUndefined
  end.

(** [field.type === "checkbox" ? false : ''] *)
Definition default_of (field : Field) : Val :=
  if String.eqb (type field) "checkbox" then VBool false
  else VStr EmptyString.

Definition buildDefaultValues (fields : list Field) : FormValues :=
  fold_left
    (fun defaults field => dict_set (name field) (default_of field) defaults)
    fields [].

(** What one submission has done so far: [hasError], and the calls
    [setError(field.name, { type: "manual", message })] in order. *)
Record SubmitState : Type := {
  hasError : bool;
  errors : list (string * string);
}.

Section OnSubmit.
Context (validateValue : Field -> Val -> Completion (option string)).
Local Open Scope completion_scope.

(** One turn of the loop; [if (message)] skips [null] and the empty
    string. *)
Definition check_field (values : FormValues) (st : SubmitState)
  (field : Field) : Completion SubmitState :=
  message <- validateValue field (read values (name field)) ;;
  match message with
  | Some m =>
      if ReactTs.nonempty m
      then Normal {| hasError := true;
                     errors := (errors st ++ [(name field, m)])%list |}
      else Normal st
  | None => Normal st
  end.

Fixpoint check_fields (values : FormValues) (st : SubmitState)
  (fields : list Field) : Completion SubmitState :=
  match fields with
  | [] => Normal st
  | field :: rest =>
      st' <- check_field values st field ;;
      check_fields values st' rest
  end.

(** [onSubmit]: the errors it registers and the values it hands to
    [setSubmitted], if it does.  (An error thrown by the validator ends
    the call; what was registered before is then left to the form
    library and is not part of the result.) *)
Definition onSubmit (form : FormDefinition) (values : FormValues)
  : Completion (list (string * string) * option FormValues) :=
  st <- check_fields values {| hasError := false; errors := [] |}
          (fields form) ;;
  if hasError st then Normal (errors st, None)
  else Normal (errors st, Some values).

End OnSubmit.

End Renderer.

(** ** The builder page: app/preview/page.tsx *)

Module Builder.
Import Str.

(** [/^[A-Za-z][A-Za-z0-9_]*$/.test(name)] *)
Definition isValidFieldName (name : string) : bool :=
  match name with
  | String c t =>
      is_alpha c
      && all (fun c => is_alnum c || Ascii.eqb c ReactTs.underscore) t
  | EmptyString => false
  end.

(** The decimal digits of a counter, as a template literal prints it. *)
Definition string_of_nat (n : nat) : string :=
  NilEmpty.string_of_uint (Nat.to_uint n).

(** [fieldNameSet.has(name)] *)
Definition has (names : list string) (name : string) : bool :=
  existsb (String.eqb name) names.

(** [type === "email" ? "email" : "field"] *)
Definition baseName (type : string) : string :=
  if String.eqb type "email" then "email" else "field".

(** The loop [while (fieldNameSet.has(name)) { name = `${baseName}${i}`; i++ }],
    run for at most [fuel] turns; [None] when the fuel runs out first. *)
Fixpoint uniqueName (fuel : nat) (names : list string) (base name : string)
  (i : nat) : option string :=
  if has names name then
    match fuel with
    | O => None
    | S fuel' =>
        uniqueName fuel' names base (base ++ string_of_nat i) (S i)
    end
  else Some name.

(** The names the loop tries, in order: the base name, then the base name
    followed by 1, 2, 3, ... *)
Definition candidate (base : string) (j : nat) : string :=
  match j with
  | O => base
  | S _ => base ++ string_of_nat j
  end.

(** The field [addField] creates; [fresh_id] stands for [makeId("f")]. *)
Definition newField (fresh_id name type : string) : Field :=
  {| id := fresh_id; name := name; label := "New Field"; type := type;
     required := Some false; helperText := None;
     placeholder := Some EmptyString; rules := VUndefined |}.

Definition with_fields (form : FormDefinition) (fields : list Field)
  (now : string) : FormDefinition :=
  {| form_id := form_id form; title := title form;
     description := description form; version := version form;
     fields := fields; createdAtISO := createdAtISO form;
     updatedAtISO := now |}.

(** [addField]; [now] stands for [nowISO()].  The loop gets as many turns
    as there are names. *)
Definition addField (fresh_id now type : string) (form : FormDefinition)
  : option FormDefinition :=
  let names := map name (fields form) in
  match uniqueName (List.length names) names (baseName type) (baseName type) 1
  with
  | Some name =>
      Some (with_fields form
              (fields form ++ [newField fresh_id name type])%list now)
  | None => None
  end.

(** [Partial<Field>]: [Some v] for a key the patch carries. *)
Record FieldPatch : Type := {
  patch_id : option string;
  patch_name : option string;
  patch_label : option string;
  patch_type : option string;
  patch_required : option (option bool);
  patch_helperText : option (option string);
  patch_placeholder : option (option string);
  patch_rules : option Val;
}.

Definition or_keep {A} (patched : option A) (old : A) : A :=
  match patched with
  | Some v => v
  | None => old
  end.

(** [{ ...f, ...patch }] *)
Definition apply_patch (f : Field) (patch : FieldPatch) : Field :=
  {| id := or_keep (patch_id patch) (id f);
     name := or_keep (patch_name patch) (name f);
     label := or_keep (patch_label patch) (label f);
     type := or_keep (patch_type patch) (type f);
     required := or_keep (patch_required patch) (required f);
     helperText := or_keep (patch_helperText patch) (helperText f);
     placeholder := or_keep (patch_placeholder patch) (placeholder f);
     rules := or_keep (patch_rules patch) (rules f) |}.

Definition updateField (now target : string) (patch : FieldPatch)
  (form : FormDefinition) : FormDefinition :=
  with_fields form
    (map (fun f => if String.eqb (id f) target then apply_patch f patch else f)
       (fields form))
    now.

Definition deleteField (now target : string) (form : FormDefinition)
  : FormDefinition :=
  with_fields form
    (filter (fun f => negb (String.eqb (id f) target)) (fields form)) now.

Inductive Direction : Type := up | down.

(** [fields.findIndex((f) => f.id === id)], [None] for [-1]. *)
Fixpoint findIndex (target : string) (fields : list Field) : option nat :=
  match fields with
  | [] => None
  | f :: rest =>
      if String.eqb (id f) target then Some 0%nat
      else option_map S (findIndex target rest)
  end.

(** [next[i] = x] for an index within the array. *)
Fixpoint set_at {A} (i : nat) (x : A) (l : list A) : list A :=
  match l, i with
  | [], _ => []
  | _ :: rest, O => x :: rest
  | y :: rest, S i' => y :: set_at i' x rest
  end.

(** [[next[i], next[j]] = [next[j], next[i]]] for two indices within the
    array. *)
Definition swap {A} (i j : nat) (l : list A) : list A :=
  match nth_error l i, nth_error l j with
  | Some a, Some b => set_at j a (set_at i b l)
  | _, _ => l
  end.

(** [moveField]: the form is returned as it is when the field is not
    found or the target index falls outside the array. *)
Definition moveField (now target : string) (direction : Direction)
  (form : FormDefinition) : FormDefinition :=
  match findIndex target (fields form) with
  | None => form
  | Some idx =>
      match direction, idx with
      | up, O => form
      | up, S t => with_fields form (swap idx t (fields form)) now
      | down, _ =>
          if (S idx <? List.length (fields form))%nat
          then with_fields form (swap idx (S idx) (fields form)) now
          else form
      end
  end.

End Builder.

(** ** The export page: the file name of a download *)

Module ExportPage.
Import Str.

Definition dash : ascii := "-"%char.

(** [toLowerCase] of one code unit below 256: the ASCII capitals and the
    Latin-1 capitals (all of 192..222 but the multiplication sign). *)
Definition toLowerCase1 (c : ascii) : ascii :=
  let n := nat_of_ascii c in
  if ((65 <=? n) && (n <=? 90)
      || (192 <=? n) && (n <=? 222) && negb (n =? 215))%nat
  then ascii_of_nat (n + 32)
  else c.

Fixpoint toLowerCase (s : string) : string :=
  match s with
  | String c t => String (toLowerCase1 c) (toLowerCase t)
  | EmptyString => EmptyString
  end.

(** The class [[a-z0-9]]. *)
Definition is_slug (c : ascii) : bool := is_lower c || is_digit c.

(** [s.replace(/[^a-z0-9]+/g, "-")] *)
Fixpoint dash_runs (in_run : bool) (s : string) : string :=
  match s with
  | String c t =>
      if is_slug c then String c (dash_runs false t)
      else if in_run then dash_runs true t
      else String dash (dash_runs true t)
  | EmptyString => EmptyString
  end.

(** The alternative [-$]: a dash that ends the string. *)
Fixpoint strip_last_dash (s : string) : string :=
  match s with
  | String c t =>
      match t with
      | EmptyString => if Ascii.eqb c dash then EmptyString else s
      | _ => String c (strip_last_dash t)
      end
  | EmptyString => EmptyString
  end.

(** [s.replace(/(^-|-$)/g, "")]: the dash at the start goes, then the dash
    at the end of what is left. *)
Definition strip_dashes (s : string) : string :=
  match s with
  | String c t => if Ascii.eqb c dash then strip_last_dash t
                  else strip_last_dash s
  | EmptyString => EmptyString
  end.

(** No two dashes in a row. *)
Fixpoint no_double_dash (s : string) : bool :=
  match s with
  | String c t =>
      match t with
      | String c' _ =>
          negb (Ascii.eqb c dash && Ascii.eqb c' dash) && no_double_dash t
      | EmptyString => true
      end
  | EmptyString => true
  end.

Definition starts_with_dash (s : string) : bool :=
  match s with
  | String c _ => Ascii.eqb c dash
  | EmptyString => false
  end.

Fixpoint ends_with_dash (s : string) : bool :=
  match s with
  | String c t =>
      match t with
      | EmptyString => Ascii.eqb c dash
      | _ => ends_with_dash t
      end
  | EmptyString => false
  end.

(** A slug: not empty, made of [a-z], [0-9] and single dashes, with no
    dash at either end. *)
Definition is_slug_text (s : string) : bool :=
  ReactTs.nonempty s
  && all (fun c => is_slug c || Ascii.eqb c dash) s
  && negb (starts_with_dash s)
  && negb (ends_with_dash s)
  && no_double_dash s.

Definition safeBase (form : FormDefinition) : string :=
  ReactTs.or_else
    (strip_dashes
       (dash_runs false
          (toLowerCase
             (ReactTs.or_else (form_id form)
                (ReactTs.or_else (title form) "form")))))
    "form".

(** ["form-json" | "json-schema" | "react-ts"] *)
Inductive ExportFormat : Type := form_json | json_schema | react_ts.

Definition filename (form : FormDefinition) (format : ExportFormat) : string :=
  match format with
  | react_ts => safeBase form ++ ".tsx"
  | json_schema => safeBase form ++ ".schema.json"
  | form_json => safeBase form ++ ".json"
  end.

End ExportPage.

(** ** The exporter's table of default values *)

Module DefaultsTable.
Import Str.

Definition dquote : ascii := ascii_of_nat 34.
Definition newline : ascii := ascii_of_nat 10.

(** A lowercase hexadecimal digit. *)
Definition hex_digit (n : nat) : ascii :=
  if (n <? 10)%nat then ascii_of_nat (48 + n) else ascii_of_nat (87 + n).

(** What [JSON.stringify] writes for one code unit of a string: the
    quotation mark and the backslash are escaped, the control characters
    get their short escape or [\u00XX], the rest is copied. *)
Definition quote_unit (c : ascii) : string :=
  let n := nat_of_ascii c in
  let esc (e : ascii) := String ReactTs.backslash (String e EmptyString) in
  if (n =? 34)%nat then esc dquote
  else if (n =? 92)%nat then esc ReactTs.backslash
  else if (n =? 8)%nat then esc "b"%char
  else if (n =? 12)%nat then esc "f"%char
  else if (n =? 10)%nat then esc "n"%char
  else if (n =? 13)%nat then esc "r"%char
  else if (n =? 9)%nat then esc "t"%char
  else if (n <? 32)%nat then
    String ReactTs.backslash
      (String "u"%char
         (String "0"%char
            (String "0"%char
               (String (hex_digit (n / 16))
                  (String (hex_digit (n mod 16)) EmptyString)))))
  else String c EmptyString.

Fixpoint quote_units (s : string) : string :=
  match s with
  | String c t => quote_unit c ++ quote_units t
  | EmptyString => EmptyString
  end.

(** [JSON.stringify(s)] for a string [s]. *)
Definition stringify (s : string) : string :=
  String dquote (quote_units s ++ String dquote EmptyString).

(** One line of [DEFAULT_VALUES]. *)
Definition initLine (f : Field) : string :=
  if String.eqb (type f) "checkbox"
  then "  " ++ stringify (name f) ++ ": false,"
  else "  " ++ stringify (name f) ++ ": "
         ++ String dquote (String dquote ",").

(** [initLines] *)
Definition initLines (fields : list Field) : string :=
  join (String newline EmptyString) (map initLine fields).

(** *** Reading a string literal back *)

Definition hex_value (c : ascii) : option nat :=
  let n := nat_of_ascii c in
  if is_digit c then Some (n - 48)%nat
  else if ((97 <=? n) && (n <=? 102))%nat then Some (n - 87)%nat
  else if ((65 <=? n) && (n <=? 70))%nat then Some (n - 55)%nat
  else None.

(** The code unit a one-letter escape stands for. *)
Definition simple_escape (e : ascii) : option ascii :=
  let n := nat_of_ascii e in
  if (n =? 34)%nat then Some dquote
  else if (n =? 92)%nat then Some ReactTs.backslash
  else if (n =? 47)%nat then Some "/"%char
  else if (n =? 98)%nat then Some (ascii_of_nat 8)
  else if (n =? 102)%nat then Some (ascii_of_nat 12)
  else if (n =? 110)%nat then Some (ascii_of_nat 10)
  else if (n =? 114)%nat then Some (ascii_of_nat 13)
  else if (n =? 116)%nat then Some (ascii_of_nat 9)
  else None.

Definition cons_result (c : ascii) (r : option (string * string))
  : option (string * string) :=
  match r with
  | Some (s, rest) => Some (String c s, rest)
  | None => None
  end.

(** The text after an opening quotation mark, read up to the closing one:
    the string it denotes and what follows the literal.  [None] for a
    literal that does not end, an escape that is not one of JSON's, or a
    [\u] escape for a code unit above 255. *)
Fixpoint read_body (s : string) : option (string * string) :=
  match s with
  | String c t =>
      if Ascii.eqb c dquote then Some (EmptyString, t)
      else if Ascii.eqb c ReactTs.backslash then
        match t with
        | String e t' =>
            if Ascii.eqb e "u"%char then
              match t' with
              | String h1 (String h2 (String h3 (String h4 t''))) =>
                  match hex_value h1, hex_value h2, hex_value h3, hex_value h4
                  with
                  | Some a, Some b, Some c3, Some d =>
                      if ((a =? 0) && (b =? 0))%nat
                      then cons_result (ascii_of_nat (16 * c3 + d))
                             (read_body t'')
                      else None
                  | _, _, _, _ => None
                  end
              | _ => None
              end
            else
              match simple_escape e with
              | Some d => cons_result d (read_body t')
              | None => None
              end
        | EmptyString => None
        end
      else cons_result c (read_body t)
  | EmptyString => None
  end.

(** A string literal at the start of [s]. *)
Definition read_literal (s : string) : option (string * string) :=
  match s with
  | String c t => if Ascii.eqb c dquote then read_body t else None
  | EmptyString => None
  end.

End DefaultsTable.

(** ** components/ui/use-toast.ts: the toast store *)

Module Toasts.

Record ToastInput : Type := {
  title : option string;
  description : option string;
  variant : option string;
  duration : option Num;
}.

Record ToastItem : Type := {
  item_id : string;
  createdAt : Num;
  item_title : option string;
  item_description : option string;
  item_variant : string;
  item_duration : Num;
}.

(** The item [toast(input)] builds; [fresh_id] stands for [makeId()] and
    [now] for [Date.now()]. *)
Definition make_item (fresh_id : string) (now : Num) (input : ToastInput)
  : ToastItem :=
  {| item_id := fresh_id;
     createdAt := now;
     item_title := title input;
     item_description := description input;
     item_variant :=
       match variant input with Some v => v | None => "default" end;
     item_duration :=
       match duration input with Some d => d | None => of_Z 3200 end |}.

(** [store.toasts = [item, ...store.toasts].slice(0, 5)] *)
Definition toast (fresh_id : string) (now : Num) (input : ToastInput)
  (toasts : list ToastItem) : list ToastItem :=
  firstn 5 (make_item fresh_id now input :: toasts).

(** Does [toast] arm a timer that dismisses the item:
    [(item.duration ?? 0) > 0]. *)
Definition auto_dismiss (item : ToastItem) : bool :=
  lt (of_Z 0) (item_duration item).

(** [dismiss(id)] *)
Definition dismiss (target : string) (toasts : list ToastItem)
  : list ToastItem :=
  filter (fun t => negb (String.eqb (item_id t) target)) toasts.

(** [dismissAll()] *)
Definition dismissAll (toasts : list ToastItem) : list ToastItem := [].

(** What can happen to the store: a call of [toast], a call of [dismiss]
    (by the user or by a timer), a call of [dismissAll]. *)
Inductive step : list ToastItem -> list ToastItem -> Prop :=
| step_toast fresh_id now input toasts :
    step toasts (toast fresh_id now input toasts)
| step_dismiss target toasts : step toasts (dismiss target toasts)
| step_dismissAll toasts : step toasts (dismissAll toasts).

(** The states the store goes through, from the empty one. *)
Inductive reachable : list ToastItem -> Prop :=
| reach_init : reachable []
| reach_step toasts toasts' :
    reachable toasts -> step toasts toasts' -> reachable toasts'.

End Toasts.

(** ** Where the exporter splices the title and the description

    Lines 181 and 182 of the template of [generateReactTsComponent]: both
    texts become children of a [div] of the generated JSX. *)

Module GeneratedJsx.
Import ReactTs.

Definition rbrace : ascii := "}"%char.
Definition langle : ascii := "<"%char.
Definition rangle : ascii := ">"%char.
Definition quotation_mark : ascii := ascii_of_nat 34.

(** [<div style={{ fontSize: 18, fontWeight: 600 }}>${title}</div>] *)
Definition title_element (form : FormDefinition) : string :=
  "<div style={{ fontSize: 18, fontWeight: 600 }}>"
    ++ embedded_title form ++ "</div>".

(** The line below it, empty when there is no description. *)
Definition description_element (form : FormDefinition) : string :=
  if nonempty (embedded_description form)
  then "<div style={{ color: "
         ++ String quotation_mark ("#666" ++ String quotation_mark
              (", fontSize: 14 }}>"
                 ++ embedded_description form ++ "</div>"))
  else EmptyString.

(** A character of JSX text: any but the two braces and the two angle
    brackets.  Among the children of an element an opening brace starts
    an expression and an opening angle bracket starts an element;
    backslashes and backticks are text like any other. *)
Definition is_jsx_text_char (c : ascii) : bool :=
  negb (Ascii.eqb c lbrace || Ascii.eqb c rbrace
        || Ascii.eqb c langle || Ascii.eqb c rangle).

(** The run of JSX text at the start of the children [s], and what is
    left. *)
Fixpoint jsx_text (s : string) : string * string :=
  match s with
  | String c t =>
      if is_jsx_text_char c
      then let '(text, rest) := jsx_text t in (String c text, rest)
      else (EmptyString, s)
  | EmptyString => (EmptyString, EmptyString)
  end.

End GeneratedJsx.

(** ** The validator *)

Section ValidatorFacts.
Context (host : Host).

Lemma member_defined (rules : Val) (k : string) :
  nullish rules = false -> member rules k = Normal (member_opt rules k).
Proof.
  unfold member, member_opt. intros ->. reflexivity.
Qed.

Lemma member_nullish (rules : Val) (k : string) :
  nullish rules = true -> member rules k = Throw TypeError.
Proof.
  unfold member. intros ->. reflexivity.
Qed.

(** With a rule bag that is neither [undefined] nor [null] the two copies
    run the same checks. *)
Lemma text_checks_agree (field : Field) (rules : Val) (s : string) :
  nullish rules = false ->
  Components.text_checks host field rules s
  = Preview.text_checks host field rules s.
Proof.
  intros Hr. unfold Components.text_checks, Preview.text_checks.
  rewrite !(member_defined _ _ Hr). cbn [bind].
  repeat match goal with
         | |- context [if ?b then _ else _] => destruct b; try reflexivity
         end.
Qed.

Lemma number_checks_agree (field : Field) (rules value : Val) :
  nullish rules = false ->
  Components.number_checks host field rules value
  = Preview.number_checks host field rules value.
Proof.
  intros Hr. unfold Components.number_checks, Preview.number_checks.
  rewrite !(member_defined _ _ Hr). cbn [bind].
  repeat match goal with
         | |- context [if ?b then _ else _] => destruct b; try reflexivity
         end.
Qed.

Lemma validateValue_agree (field : Field) (value : Val) :
  nullish (rules field) = false ->
  Components.validateValue host field value
  = Preview.validateValue host field value.
Proof.
  intros Hr. unfold Components.validateValue, Preview.validateValue.
  destruct (is_required field && isEmpty field value); [reflexivity|].
  cbv zeta.
  destruct (is_text_like (type field)), value;
    rewrite ?(text_checks_agree _ _ _ Hr), ?(number_checks_agree _ _ _ Hr);
    reflexivity.
Qed.





End ValidatorFacts.

Lemma append_cancel_l (a b c : string) : a ++ b = a ++ c -> b = c.
Proof.
  induction a as [|x a IH]; cbn; intros H; [exact H|].
  injection H as H. auto.
Qed.

Lemma text_like_not_number (t : string) :
  is_text_like t = true -> String.eqb t "number" = false.
Proof.
  unfold is_text_like. intros H.
  apply orb_true_iff in H as [H|H]; [apply orb_true_iff in H as [H|H]|];
    apply String.eqb_eq in H; subst t; reflexivity.
Qed.

Lemma le_not_lt (a b : Num) : le a b = true -> lt b a = false.
Proof.
  destruct a, b; cbn; try reflexivity; try discriminate.
  intros ->. reflexivity.
Qed.

(** A finite number is within a bound equal to itself: bounds are
    inclusive. *)
Lemma le_refl (q : Q) : le (Fin q) (Fin q) = true.
Proof.
  cbn. apply Qle_bool_iff. apply Qle_refl.
Qed.

Lemma empty_for_isEmpty (field : Field) (value : Val) :
  empty_for (type field) value <-> isEmpty field value = true.
Proof.
  unfold empty_for, isEmpty. split.
  - intros [[Ht Hv]|[Ht Hv]].
    + rewrite Ht. cbn. destruct value as [| |[|]| | | |]; try reflexivity.
      now elim Hv.
    + apply String.eqb_neq in Ht. rewrite Ht.
      destruct Hv as [->|[->| ->]]; reflexivity.
  - destruct (String.eqb_spec (type field) "checkbox") as [Ht|Ht].
    + intros Hv. left. split; [exact Ht|]. intros ->. discriminate.
    + intros Hv. right. split; [exact Ht|].
      destruct value as [| |b|n|s|l|l]; cbn in Hv; try discriminate; auto.
      destruct s; [auto|discriminate].
Qed.

Section ValidatorClaims.
Context (host : Host).

(** A text-like field without a rule bag makes the [components] copy throw
    on every string that gets past the required check. *)
Lemma components_text_throws (field : Field) (s : string) :
  is_text_like (type field) = true ->
  nullish (rules field) = true ->
  is_required field && isEmpty field (VStr s) = false ->
  Components.validateValue host field (VStr s) = Throw TypeError.
Proof.
  intros Ht Hr He. unfold Components.validateValue.
  rewrite He, Ht. cbv zeta. unfold Components.text_checks.
  rewrite (member_nullish _ _ Hr). reflexivity.
Qed.


(** C1 (the code departs from it): [validateValue] is meant to return a
    message or [null] on every field and value, in particular on a text
    field without rules.  In [components/preview/FormRenderer.tsx] the
    field [{ name: "name", label: "Name", type: "text" }] and the value
    ["abc"] end in a [TypeError]: [rules.minLength] is read from
    [undefined]. *)
Theorem components_validateValue_throws :
  Components.validateValue host nameField (VStr "abc") = Throw TypeError.
Proof.
  apply components_text_throws; reflexivity.
Qed.

(** C10 (the code departs from it): the two copies of [validateValue] are
    meant to agree.  On the required email field without rules and the
    value ["a@b.c"] the [components] copy throws and the [preview] copy
    returns [null]. *)
Theorem validateValue_copies_differ :
  Components.validateValue host emailField (VStr "a@b.c") = Throw TypeError
  /\ Preview.validateValue host emailField (VStr "a@b.c") = Normal None.
Proof.
  split; [apply components_text_throws|]; reflexivity.
Qed.

(** C2: a required field with an empty value (a checkbox with anything but
    [true], any other field with the empty string, [null] or [undefined])
    gets exactly ["<label> is required."], whatever its rules are: no other
    check runs, in either copy. *)
Theorem required_empty_short_circuits (field : Field) (value : Val) :
  required field = Some true ->
  empty_for (type field) value ->
  Components.validateValue host field value
    = Normal (Some (label field ++ " is required."))
  /\ Preview.validateValue host field value
    = Normal (Some (label field ++ " is required.")).
Proof.
  intros Hreq He. apply empty_for_isEmpty in He.
  unfold Components.validateValue, Preview.validateValue, is_required.
  rewrite Hreq, He. split; reflexivity.
Qed.


(** C7, as amended: on a number field whose [rules.integer] is [true], a
    value that coerces to a number (not NaN) without being integral gets
    the whole-number message; a value that coerces to an integral number
    within the inclusive bounds [rules.min] and [rules.max] (each one
    checked only when present) gets [null], unless the field is required
    and the value is empty.  Both copies behave so. *)
Theorem integer_rule_and_bounds (field : Field) (value : Val) :
  type field = "number" ->
  get (rules field) "integer" = VBool true ->
  isNaN (ToNumber host value) = false ->
  (isInteger (ToNumber host value) = false ->
   Components.validateValue host field value = Normal (Some (msg_whole field))
   /\ Preview.validateValue host field value = Normal (Some (msg_whole field)))
  /\ (isInteger (ToNumber host value) = true ->
      lower_ok host (get (rules field) "min") (ToNumber host value) = true ->
      upper_ok host (get (rules field) "max") (ToNumber host value) = true ->
      ~ (required field = Some true /\ empty_for (type field) value) ->
      Components.validateValue host field value = Normal None
      /\ Preview.validateValue host field value = Normal None).
Proof.
  intros Ht Hi Hnan.
  assert (Hr : nullish (rules field) = false).
  { destruct (rules field); cbn in Hi; try discriminate; reflexivity. }
  rewrite (validateValue_agree host _ _ Hr).
  unfold Preview.validateValue. rewrite Ht. cbn [is_text_like String.eqb Ascii.eqb Bool.eqb orb bind].
  cbv zeta. unfold Preview.number_checks, member_opt.
  rewrite Hr, Hi, Hnan. cbv zeta. cbn [truthy andb].
  split.
  - intros Hint. rewrite Hint. cbn [negb].
    assert (He : isEmpty field value = false).
    { unfold isEmpty. rewrite Ht. cbn [String.eqb Ascii.eqb Bool.eqb].
      destruct value as [| |b|n|s|l|l]; try reflexivity;
        cbn in Hint, Hnan; try discriminate.
      destruct s; [discriminate|reflexivity]. }
    rewrite He, andb_false_r.
    assert (Hne : negb match value with VStr EmptyString => true | _ => false end
                  && negb (nullish value) = true).
    { destruct value as [| |b|n|s|l|l]; try reflexivity;
        cbn in Hint, Hnan; try discriminate.
      destruct s; [discriminate|reflexivity]. }
    rewrite Hne. split; reflexivity.
  - intros Hint Hlo Hhi Hamend. rewrite Hint. cbn [negb].
    assert (He : is_required field && isEmpty field value = false).
    { destruct (is_required field) eqn:Hq; [|reflexivity].
      destruct (isEmpty field value) eqn:Hv; [|reflexivity].
      exfalso. apply Hamend. split.
      - unfold is_required in Hq.
        destruct (required field) as [[|]|]; try discriminate; reflexivity.
      - rewrite <- Ht. apply empty_for_isEmpty. exact Hv. }
    rewrite He.
    unfold lower_ok in Hlo. unfold upper_ok in Hhi. unfold num_lt, num_gt.
    apply orb_true_iff in Hlo. apply orb_true_iff in Hhi.
    assert (Hmin : negb (nullish (get (rules field) "min"))
                   && lt (ToNumber host value)
                         (ToNumber host (get (rules field) "min")) = false).
    { destruct Hlo as [->|Hlo]; [reflexivity|].
      rewrite (le_not_lt _ _ Hlo). apply andb_false_r. }
    assert (Hmax : negb (nullish (get (rules field) "max"))
                   && lt (ToNumber host (get (rules field) "max"))
                         (ToNumber host value) = false).
    { destruct Hhi as [->|Hhi]; [reflexivity|].
      rewrite (le_not_lt _ _ Hhi). apply andb_false_r. }
    rewrite Hmin, Hmax.
    match goal with |- context [if ?b then _ else _] => destruct b end;
      split; reflexivity.
Qed.

End ValidatorClaims.

Lemma required_empty_short_circuits_witness :
  Components.validateValue Fixture.host emailField (VStr EmptyString)
    = Normal (Some "Email is required.")
  /\ Preview.validateValue Fixture.host emailField (VStr EmptyString)
    = Normal (Some "Email is required.").
Proof.
  apply (required_empty_short_circuits Fixture.host emailField (VStr EmptyString)).
  - reflexivity.
  - right. split; [discriminate | left; reflexivity].
Defined.


Lemma integer_rule_and_bounds_witness :
  Components.validateValue Fixture.host ageField (VStr "17.5")
    = Normal (Some "Age must be a whole number.")
  /\ Components.validateValue Fixture.host ageField (VStr "18") = Normal None.
Proof.
  split.
  - apply (integer_rule_and_bounds Fixture.host ageField (VStr "17.5"));
      reflexivity.
  - apply (integer_rule_and_bounds Fixture.host ageField (VStr "18"));
      try reflexivity.
    intros [_ [[H _]|[_ [H|[H|H]]]]]; discriminate.
Defined.

(** C7 as it was stated fails: [rules.integer] is [true], the empty string
    coerces to the integral number 0 and there are no bounds, yet a
    required field answers with the required message, not [null]. *)
Lemma integral_value_rejected :
  ~ (forall (host : Host) (field : Field) (value : Val),
        type field = "number" ->
        get (rules field) "integer" = VBool true ->
        isNaN (ToNumber host value) = false ->
        (isInteger (ToNumber host value) = false ->
         Components.validateValue host field value
         = Normal (Some (msg_whole field)))
        /\ (isInteger (ToNumber host value) = true ->
            lower_ok host (get (rules field) "min") (ToNumber host value) = true ->
            upper_ok host (get (rules field) "max") (ToNumber host value) = true ->
            Components.validateValue host field value = Normal None)).
Proof.
  intros H.
  destruct (H Fixture.host countField (VStr EmptyString)
              eq_refl eq_refl eq_refl) as [_ Hnull].
  specialize (Hnull eq_refl eq_refl eq_refl).
  discriminate Hnull.
Qed.

(** ** The schema generator *)

Module SchemaFacts.
Import SchemaGenerator.

Lemma dict_get_set_same {A} (k : string) (v : A) (d : Dict A) :
  dict_get k (dict_set k v d) = Some v.
Proof.
  induction d as [|[k' v'] d IH]; cbn.
  - now rewrite String.eqb_refl.
  - destruct (String.eqb_spec k k') as [->|Hk]; cbn.
    + now rewrite String.eqb_refl.
    + apply String.eqb_neq in Hk. now rewrite Hk.
Qed.

Lemma dict_get_set_other {A} (k k' : string) (v : A) (d : Dict A) :
  k <> k' -> dict_get k (dict_set k' v d) = dict_get k d.
Proof.
  intros Hk. induction d as [|[k2 v2] d IH]; cbn.
  - apply String.eqb_neq in Hk. now rewrite Hk.
  - destruct (String.eqb_spec k' k2) as [->|Hk2]; cbn.
    + apply String.eqb_neq in Hk. now rewrite Hk.
    + destruct (String.eqb k k2); [reflexivity | exact IH].
Qed.

(** The loop appends the names of the required fields, in order. *)
Lemma collect_required (l : list Field) (p : Dict JsonSchemaProperty)
  (r : list string) :
  snd (fold_left collect_field l (p, r))
  = (r ++ map name (filter is_required l))%list.
Proof.
  revert p r. induction l as [|f l IH]; intros p r; cbn [fold_left].
  - cbn. now rewrite app_nil_r.
  - unfold collect_field at 2. rewrite IH. cbn [filter].
    destruct (is_required f); cbn [map]; [|reflexivity].
    now rewrite <- app_assoc.
Qed.

(** Fields with other names leave the entry of [k] as it was. *)
Lemma collect_other_names (k : string) (l : list Field)
  (p : Dict JsonSchemaProperty) (r : list string) :
  (forall g, In g l -> name g <> k) ->
  dict_get k (fst (fold_left collect_field l (p, r))) = dict_get k p.
Proof.
  revert p r. induction l as [|f l IH]; intros p r Hl; cbn [fold_left].
  - reflexivity.
  - unfold collect_field at 2. rewrite IH.
    + apply dict_get_set_other. intros ->. apply (Hl f); [left|]; reflexivity.
    + intros g Hg. apply Hl. now right.
Qed.

(** The entry of a field that no later field overwrites. *)
Lemma collect_last_writer (pre post : list Field) (f : Field) :
  (forall g, In g post -> name g <> name f) ->
  dict_get (name f)
    (fst (fold_left collect_field (pre ++ f :: post)%list ([], [])))
  = Some (fieldToJsonSchema f).
Proof.
  intros Hpost. rewrite fold_left_app. cbn [fold_left].
  destruct (fold_left collect_field pre ([], [])) as [p r].
  unfold collect_field at 2.
  rewrite collect_other_names by exact Hpost.
  apply dict_get_set_same.
Qed.

Lemma generateJsonSchema_required (form : FormDefinition) :
  schema_required (generateJsonSchema form)
  = match map name (filter is_required (fields form)) with
    | [] => None
    | names => Some names
    end.
Proof.
  unfold generateJsonSchema.
  pose proof (collect_required (fields form) [] []) as H.
  destruct (fold_left collect_field (fields form) ([], [])) as [p r] eqn:E.
  unfold Dict in *. rewrite E in H. cbn in H. subst r. cbn [schema_required].
  destruct (map name (filter is_required (fields form))); reflexivity.
Qed.

Lemma generateJsonSchema_properties (form : FormDefinition) :
  properties (generateJsonSchema form)
  = fst (fold_left collect_field (fields form) ([], [])).
Proof.
  unfold generateJsonSchema.
  destruct (fold_left collect_field (fields form) ([], [])) as [p r].
  reflexivity.
Qed.

Lemma readOptionsValues_spec (rules : Val) :
  readOptionsValues rules
  = match get rules "options" with
    | VArr opts => option_values opts
    | _ => []
    end.
Proof.
  unfold readOptionsValues, isRecord.
  destruct rules as [| |b|n|s|l|props]; try reflexivity. cbn [is_object negb].
  destruct (get (VObj props) "options") as [| |b|n|s|opts|o]; try reflexivity.
  induction opts as [|o opts IH]; [reflexivity|].
  cbn [map flat_map option_values]. rewrite IH.
  destruct o as [| |b|n|s|l|ps]; try reflexivity.
  cbn [is_object get option_value].
  destruct (assoc "value" ps); reflexivity.
Qed.

Lemma option_values_well_formed (pairs : list (string * string)) :
  option_values (map mkOption pairs) = map snd pairs.
Proof.
  induction pairs as [|[l v] pairs IH]; [reflexivity|].
  cbn. now rewrite IH.
Qed.

Lemma option_values_malformed (opts : list Val) :
  (forall o, In o opts -> option_value o = None) -> option_values opts = [].
Proof.
  induction opts as [|o opts IH]; intros H; [reflexivity|].
  cbn. rewrite (H o) by now left. apply IH. intros o' Ho'. apply H. now right.
Qed.

End SchemaFacts.

Import SchemaGenerator.

(** C4: the [required] key of the generated schema lists the names of the
    fields whose [required] flag is [true], in field order, and is absent
    (never an empty array) when there is none. *)
Theorem required_key_lists_required_fields (form : FormDefinition) :
  let names :=
    map name
      (filter (fun f => match required f with Some true => true | _ => false end)
         (fields form)) in
  (names = [] -> schema_required (generateJsonSchema form) = None)
  /\ (names <> [] -> schema_required (generateJsonSchema form) = Some names)
  /\ schema_required (generateJsonSchema form) <> Some [].
Proof.
  cbv zeta. rewrite SchemaFacts.generateJsonSchema_required.
  change (fun f => match required f with Some true => true | _ => false end)
    with is_required.
  destruct (map name (filter is_required (fields form))) as [|n names].
  - repeat split; [congruence | discriminate].
  - repeat split; [discriminate | discriminate].
Qed.

Lemma required_key_lists_required_fields_witness :
  schema_required
    (generateJsonSchema (mkForm "Contact" [nameField; emailField; ageField]))
  = Some ["email"; "age"]
  /\ schema_required (generateJsonSchema (mkForm "Contact" [nameField])) = None.
Proof.
  split.
  - apply (required_key_lists_required_fields
             (mkForm "Contact" [nameField; emailField; ageField])).
    discriminate.
  - apply (required_key_lists_required_fields (mkForm "Contact" [nameField])).
    reflexivity.
Defined.

(** C5: a select field projects to [{ type: "string", enum }], where [enum]
    holds the [value] of each option that is an object with a string
    [value], in option order; so a list of [{ label, value }] options gives
    their values, and a rule bag that is missing or not an object, an
    [options] entry that is missing or not an array, or options none of
    which is well formed give the empty array.  Nothing throws. *)
Theorem select_enum (field : Field) :
  type field = "select" ->
  exists values,
    fieldToJsonSchema field
    = OfString {| format := None; minLength := None; maxLength := None;
                  pattern := None; enum := Some values |}
    /\ (forall opts, get (rules field) "options" = VArr opts ->
        values = option_values opts)
    /\ (forall pairs, get (rules field) "options" = VArr (map mkOption pairs) ->
        values = map snd pairs)
    /\ (is_object (rules field) = false -> values = [])
    /\ ((forall opts, get (rules field) "options" <> VArr opts) -> values = [])
    /\ (forall opts, get (rules field) "options" = VArr opts ->
        (forall o, In o opts -> option_value o = None) -> values = []).
Proof.
  intros Ht. exists (readOptionsValues (rules field)).
  split; [unfold fieldToJsonSchema; rewrite Ht; reflexivity|].
  rewrite SchemaFacts.readOptionsValues_spec.
  repeat split.
  - intros opts ->. reflexivity.
  - intros pairs ->. apply SchemaFacts.option_values_well_formed.
  - destruct (rules field); cbn; intros; try reflexivity; discriminate.
  - intros H. destruct (get (rules field) "options"); try reflexivity.
    now elim (H items).
  - intros opts -> H. now apply SchemaFacts.option_values_malformed.
Qed.

Lemma select_enum_witness :
  exists values,
    fieldToJsonSchema
      (mkField "answer" "Answer" "select" None
         (VObj [("options", VArr [mkOption ("Yes", "y"); mkOption ("No", "n")])]))
    = OfString {| format := None; minLength := None; maxLength := None;
                  pattern := None; enum := Some values |}
    /\ values = ["y"; "n"].
Proof.
  destruct (select_enum
              (mkField "answer" "Answer" "select" None
                 (VObj [("options",
                         VArr [mkOption ("Yes", "y"); mkOption ("No", "n")])]))
              eq_refl) as [values [H [_ [Hv _]]]].
  exists values. split; [exact H|].
  apply (Hv [("Yes", "y"); ("No", "n")]). reflexivity.
Defined.

Module ProjectionFacts.

Lemma get_primitive (v : Val) (k : string) :
  is_object v = false -> get v k = VUndefined.
Proof.
  destruct v; cbn; intros; try reflexivity; discriminate.
Qed.

(** The guard [isRecord(rules)] changes nothing: outside it every read
    finds [undefined]. *)
Lemma textToJsonSchema_reads (field : Field) :
  textToJsonSchema field
  = {| format :=
         if String.eqb (type field) "email" then Some "email" else None;
       minLength := readNumber (rules field) "minLength";
       maxLength := readNumber (rules field) "maxLength";
       pattern :=
         match readString (rules field) "pattern" with
         | Some p =>
             if negb (String.eqb p EmptyString)
                && negb (String.eqb (Str.trim p) EmptyString)
             then Some p else None
         | None => None
         end;
       enum := None |}.
Proof.
  unfold textToJsonSchema, isRecord, readNumber, readString.
  destruct (is_object (rules field)) eqn:Ho; [reflexivity|].
  rewrite !(get_primitive _ _ Ho). reflexivity.
Qed.

Lemma numberToJsonSchema_reads (field : Field) :
  numberToJsonSchema field
  = {| number_type :=
         match readBoolean (rules field) "integer" with
         | Some true => "integer"
         | _ => "number"
         end;
       minimum := readNumber (rules field) "min";
       maximum := readNumber (rules field) "max" |}.
Proof.
  unfold numberToJsonSchema, isRecord, readNumber, readBoolean.
  destruct (is_object (rules field)) eqn:Ho; [reflexivity|].
  rewrite !(get_primitive _ _ Ho). reflexivity.
Qed.

End ProjectionFacts.

(** C6, as amended: in a form with a field named [email], of type [email],
    required and without text rules, the [required] array of the schema
    contains ["email"]; and [properties.email] is
    [{ type: "string", format: "email" }] provided no later field of the
    form is named [email] too. *)
Theorem email_field_projection (form : FormDefinition)
  (pre post : list Field) (field : Field) :
  fields form = (pre ++ field :: post)%list ->
  name field = "email" ->
  type field = "email" ->
  required field = Some true ->
  no_text_rules (rules field) ->
  (exists names,
      schema_required (generateJsonSchema form) = Some names
      /\ In "email" names)
  /\ ((forall g, In g post -> name g <> "email") ->
      dict_get "email" (properties (generateJsonSchema form))
      = Some email_schema).
Proof.
  intros Hf Hn Ht Hreq [Hmin [Hmax Hpat]]. split.
  - rewrite SchemaFacts.generateJsonSchema_required, Hf.
    assert (Hin : In "email"
                    (map name (filter is_required (pre ++ field :: post)%list))).
    { rewrite <- Hn. apply in_map. apply filter_In. split.
      - apply in_or_app. right. now left.
      - unfold is_required. now rewrite Hreq. }
    destruct (map name (filter is_required (pre ++ field :: post)%list));
      [destruct Hin | eauto].
  - intros Hpost. rewrite SchemaFacts.generateJsonSchema_properties, Hf, <- Hn.
    rewrite SchemaFacts.collect_last_writer by (rewrite Hn; exact Hpost).
    f_equal. unfold fieldToJsonSchema. rewrite Ht. cbn [is_text_like String.eqb Ascii.eqb Bool.eqb orb].
    rewrite ProjectionFacts.textToJsonSchema_reads, Ht.
    unfold readNumber, readString. rewrite Hmin, Hmax, Hpat. reflexivity.
Qed.

Lemma email_field_projection_witness :
  (exists names,
      schema_required
        (generateJsonSchema (mkForm "Signup" [nameField; emailField]))
      = Some names
      /\ In "email" names)
  /\ dict_get "email"
       (properties (generateJsonSchema (mkForm "Signup" [nameField; emailField])))
     = Some email_schema.
Proof.
  destruct (email_field_projection
              (mkForm "Signup" [nameField; emailField])
              [nameField] [] emailField eq_refl eq_refl eq_refl eq_refl
              (conj eq_refl (conj eq_refl eq_refl))) as [Hreq Hprop].
  split; [exact Hreq|]. apply Hprop. intros g [].
Defined.

(** C6 as it was stated fails: a later field with the same name takes over
    [properties.email]. *)
Lemma email_property_overwritten :
  ~ (forall (form : FormDefinition) (field : Field),
        In field (fields form) ->
        name field = "email" ->
        type field = "email" ->
        required field = Some true ->
        no_text_rules (rules field) ->
        dict_get "email" (properties (generateJsonSchema form))
        = Some email_schema
        /\ exists names,
            schema_required (generateJsonSchema form) = Some names
            /\ In "email" names).
Proof.
  intros H.
  destruct (H (mkForm "Signup" [emailField; consentField]) emailField
              (or_introl eq_refl) eq_refl eq_refl eq_refl
              (conj eq_refl (conj eq_refl eq_refl))) as [Hprop _].
  discriminate Hprop.
Qed.

(** C8: the property schema of a field depends on its type and on the rule
    keys of that type only ([minLength], [maxLength] and [pattern] for the
    text-like types, [integer], [min] and [max] for [number], [options] for
    [select], none otherwise): two fields of one type whose bags agree on
    those keys project to the same schema, whatever else the bags hold; and
    the schema carries no key of another type. *)
Theorem fieldToJsonSchema_own_keys (f1 f2 : Field) :
  type f1 = type f2 ->
  (forall k, In k (relevant_keys (type f1)) ->
             get (rules f1) k = get (rules f2) k) ->
  fieldToJsonSchema f1 = fieldToJsonSchema f2
  /\ own_keys_only (type f1) (fieldToJsonSchema f1).
Proof.
  intros Ht Hk. unfold fieldToJsonSchema, own_keys_only, relevant_keys in *.
  rewrite <- Ht.
  destruct (is_text_like (type f1)).
  { rewrite !ProjectionFacts.textToJsonSchema_reads, <- Ht.
    unfold readNumber, readString.
    rewrite <- !Hk by (cbn; auto). split; [reflexivity|]. eauto. }
  destruct (String.eqb (type f1) "number").
  { rewrite !ProjectionFacts.numberToJsonSchema_reads.
    unfold readNumber, readBoolean.
    rewrite <- !Hk by (cbn; auto). split; [reflexivity|]. eauto. }
  split; [|exact I].
  destruct (String.eqb (type f1) "date"); [reflexivity|].
  destruct (String.eqb (type f1) "select"); [|reflexivity].
  rewrite !SchemaFacts.readOptionsValues_spec.
  rewrite <- Hk by (cbn; auto). reflexivity.
Qed.

Lemma fieldToJsonSchema_own_keys_witness :
  fieldToJsonSchema
    (mkField "nick" "Nick" "text" None
       (VObj [("maxLength", VNum (of_Z 8));
              ("options", VArr [mkOption ("Yes", "y")]);
              ("min", VNum (of_Z 3))]))
  = fieldToJsonSchema
      (mkField "nick" "Nick" "text" None (VObj [("maxLength", VNum (of_Z 8))])).
Proof.
  apply (fieldToJsonSchema_own_keys
           (mkField "nick" "Nick" "text" None
              (VObj [("maxLength", VNum (of_Z 8));
                     ("options", VArr [mkOption ("Yes", "y")]);
                     ("min", VNum (of_Z 3))]))
           (mkField "nick" "Nick" "text" None
              (VObj [("maxLength", VNum (of_Z 8))]))).
  - reflexivity.
  - intros k [<-|[<-|[<-|[]]]]; reflexivity.
Defined.

(** ** The exporter *)

Module EscapeFacts.
Import Str ReactTs.

Lemma escape_cons (c : ascii) (t : string) :
  escapeTemplateString (String c t)
  = escaped_unit c t ++ escapeTemplateString t.
Proof.
  unfold escapeTemplateString, escaped_unit.
  cbn [replace_each].
  destruct (Ascii.eqb_spec c backslash) as [->|Hbs].
  { reflexivity. }
  destruct (Ascii.eqb_spec backslash c) as [E|_]; [now elim Hbs|].
  cbn [replace_each].
  destruct (Ascii.eqb_spec c backtick) as [->|Hbt].
  { reflexivity. }
  destruct (Ascii.eqb_spec backtick c) as [E|_]; [now elim Hbt|].
  cbn [replace_dollar_brace].
  destruct (Ascii.eqb_spec c dollar) as [->|Hd]; [|reflexivity].
  destruct t as [|c' t']; [reflexivity|].
  cbn [replace_each].
  destruct (Ascii.eqb_spec c' lbrace) as [->|Hl].
  { reflexivity. }
  destruct (Ascii.eqb backslash c').
  { cbn. reflexivity. }
  cbn [replace_each].
  destruct (Ascii.eqb backtick c').
  { cbn. reflexivity. }
  apply Ascii.eqb_neq in Hl. rewrite Hl. reflexivity.
Qed.

(** The escaped text starts with an opening brace only if the text did. *)
Lemma escape_head_lbrace (t : string) (c : ascii) (rest : string) :
  escapeTemplateString t = String c rest ->
  Ascii.eqb c lbrace = true ->
  exists t', t = String lbrace t'.
Proof.
  destruct t as [|x t]; [discriminate|].
  rewrite escape_cons. unfold escaped_unit.
  destruct (Ascii.eqb_spec x backslash) as [->|_].
  { cbn. intros H. injection H as <- _. discriminate. }
  destruct (Ascii.eqb_spec x backtick) as [->|_].
  { cbn. intros H. injection H as <- _. discriminate. }
  destruct (Ascii.eqb_spec x dollar) as [->|_].
  { destruct t as [|y t]; [|destruct (Ascii.eqb y lbrace)];
      cbn; intros H; injection H as <- _; discriminate. }
  cbn. intros H Hc. injection H as <- _.
  apply Ascii.eqb_eq in Hc. subst x. eauto.
Qed.

Lemma escape_template_ok (s : string) :
  template_ok false (escapeTemplateString s) = true.
Proof.
  induction s as [|c t IH]; [reflexivity|].
  rewrite escape_cons. unfold escaped_unit.
  destruct (Ascii.eqb_spec c backslash) as [->|Hbs]; [exact IH|].
  destruct (Ascii.eqb_spec c backtick) as [->|Hbt]; [exact IH|].
  destruct (Ascii.eqb_spec c dollar) as [->|Hd].
  - destruct t as [|c' t']; [reflexivity|].
    destruct (Ascii.eqb_spec c' lbrace) as [->|Hl]; [exact IH|].
    cbn [append template_ok]. cbn [Ascii.eqb Bool.eqb dollar backslash backtick].
    cbn match.
    destruct (escapeTemplateString (String c' t')) as [|x rest] eqn:E;
      [reflexivity|].
    rewrite IH, andb_true_r.
    destruct (Ascii.eqb x lbrace) eqn:Hx; [|reflexivity].
    destruct (escape_head_lbrace _ _ _ E Hx) as [t'' Ht''].
    injection Ht'' as -> _. now elim Hl.
  - cbn [append template_ok].
    apply Ascii.eqb_neq in Hbs, Hbt, Hd. rewrite Hbs, Hbt, Hd. exact IH.
Qed.

Lemma escape_template_value (s : string) :
  template_value (escapeTemplateString s) = s.
Proof.
  induction s as [|c t IH]; [reflexivity|].
  rewrite escape_cons. unfold escaped_unit.
  destruct (Ascii.eqb_spec c backslash) as [->|Hbs].
  { cbn. now rewrite IH. }
  destruct (Ascii.eqb_spec c backtick) as [->|Hbt].
  { cbn. now rewrite IH. }
  destruct (Ascii.eqb_spec c dollar) as [->|Hd].
  - destruct t as [|c' t']; [reflexivity|].
    revert IH. generalize (escapeTemplateString (String c' t')).
    intros e He. destruct (Ascii.eqb c' lbrace); cbn; now rewrite He.
  - cbn [append template_value].
    apply Ascii.eqb_neq in Hbs. rewrite Hbs. now rewrite IH.
Qed.

End EscapeFacts.

Module NamingFacts.
Import Str ReactTs.

Lemma all_append (p : ascii -> bool) (a b : string) :
  all p (a ++ b) = all p a && all p b.
Proof.
  induction a as [|c a IH]; cbn; [reflexivity|].
  now rewrite IH, andb_assoc.
Qed.

Lemma all_impl (p q : ascii -> bool) (s : string) :
  (forall c, p c = true -> q c = true) -> all p s = true -> all q s = true.
Proof.
  intros Hpq. induction s as [|c s IH]; cbn; [reflexivity|].
  intros H. apply andb_true_iff in H as [Hc Hs].
  now rewrite (Hpq c Hc), IH.
Qed.

Lemma all_trimStart (p : ascii -> bool) (s : string) :
  all p s = true -> all p (trimStart s) = true.
Proof.
  induction s as [|c s IH]; cbn; [reflexivity|].
  intros H. destruct (is_space c); [|exact H].
  apply andb_true_iff in H as [_ Hs]. auto.
Qed.

Lemma all_trimEnd (p : ascii -> bool) (s : string) :
  all p s = true -> all p (trimEnd s) = true.
Proof.
  induction s as [|c s IH]; cbn; [reflexivity|].
  intros H. apply andb_true_iff in H as [Hc Hs]. specialize (IH Hs).
  destruct (trimEnd s) as [|c' s'].
  - destruct (is_space c); cbn; [reflexivity | now rewrite Hc].
  - cbn [all]. cbn [all] in IH. now rewrite Hc, IH.
Qed.

Lemma all_trim (p : ascii -> bool) (s : string) :
  all p s = true -> all p (trim s) = true.
Proof.
  intros H. unfold trim. now apply all_trimEnd, all_trimStart.
Qed.

Lemma all_replace_each (p q cls : ascii -> bool) (by_ s : string) :
  (forall c, p c = true -> cls c = false -> q c = true) ->
  all q by_ = true ->
  all p s = true ->
  all q (replace_each cls by_ s) = true.
Proof.
  intros Hc Hby. induction s as [|c s IH]; cbn; [reflexivity|].
  intros H. apply andb_true_iff in H as [Hpc Hs].
  destruct (cls c) eqn:E.
  - now rewrite all_append, Hby, IH.
  - cbn. now rewrite (Hc c Hpc E), IH.
Qed.

Lemma all_true (s : string) : all (fun _ => true) s = true.
Proof.
  induction s; cbn; auto.
Qed.

(** What [safeIdentifier] returns holds only letters, digits, [_], [-]
    and white space. *)
Lemma safeIdentifier_kept (input : string) :
  all is_kept (safeIdentifier input) = true.
Proof.
  unfold safeIdentifier.
  match goal with |- context [if ?b then _ else _] => destruct b end;
    [|reflexivity].
  apply all_trim.
  apply all_replace_each with (p := fun _ => true).
  - intros c _ H. now apply negb_false_iff in H.
  - reflexivity.
  - apply all_true.
Qed.

Lemma replace_runs_kept (in_run : bool) (s : string) :
  all is_kept s = true ->
  all (fun c => is_alnum c || is_space c) (replace_runs in_run s) = true.
Proof.
  revert in_run. induction s as [|c s IH]; intros in_run; cbn;
    [reflexivity|].
  intros H. apply andb_true_iff in H as [Hc Hs].
  destruct (is_joiner c) eqn:Ej.
  - destruct in_run; [now apply IH|].
    cbn [all]. now rewrite IH.
  - cbn [all]. rewrite IH by exact Hs. rewrite andb_true_r.
    unfold is_kept in Hc. unfold is_joiner in Ej.
    apply orb_false_iff in Ej as [E1 E2].
    rewrite E1, E2, !orb_false_r in Hc. exact Hc.
Qed.

Lemma split_ws_alnum (in_sep : bool) (cur s : string) :
  all is_alnum cur = true ->
  all (fun c => is_alnum c || is_space c) s = true ->
  Forall (fun part => all is_alnum part = true) (split_ws in_sep cur s).
Proof.
  revert in_sep cur. induction s as [|c s IH]; intros in_sep cur Hcur;
    cbn [split_ws all].
  - intros _. constructor; [exact Hcur | constructor].
  - intros H. apply andb_true_iff in H as [Hc Hs].
    destruct (is_space c) eqn:Esp.
    + destruct in_sep; [now apply IH|].
      constructor; [exact Hcur | now apply IH].
    + apply IH; [|exact Hs].
      rewrite all_append, Hcur. cbn. rewrite orb_false_r in Hc.
      now rewrite Hc.
Qed.

Lemma toUpperCase1_alnum (c : ascii) :
  is_alnum c = true -> is_alnum (toUpperCase1 c) = true.
Proof.
  destruct c as [[] [] [] [] [] [] [] []]; vm_compute; trivial.
Qed.

Lemma capitalize_alnum (part : string) :
  all is_alnum part = true -> all is_alnum (capitalize part) = true.
Proof.
  destruct part as [|c t]; cbn; [reflexivity|].
  intros H. apply andb_true_iff in H as [Hc Ht].
  now rewrite (toUpperCase1_alnum c Hc), Ht.
Qed.

Lemma concat_alnum (parts : list string) :
  Forall (fun part => all is_alnum part = true) parts ->
  all is_alnum (String.concat EmptyString parts) = true.
Proof.
  induction 1 as [|p parts Hp _ IH]; [reflexivity|].
  destruct parts as [|p' parts']; [exact Hp|].
  change (String.concat EmptyString (p :: p' :: parts'))
    with (p ++ EmptyString ++ String.concat EmptyString (p' :: parts')).
  now rewrite !all_append, Hp, IH.
Qed.

Lemma toPascalCase_alnum (s : string) :
  all is_kept s = true -> all is_alnum (toPascalCase s) = true.
Proof.
  intros H. unfold toPascalCase. apply concat_alnum.
  apply Forall_map.
  assert (Hparts : Forall (fun part => all is_alnum part = true)
                     (split_ws false EmptyString (replace_runs false s))).
  { apply split_ws_alnum; [reflexivity | now apply replace_runs_kept]. }
  induction Hparts as [|p parts Hp _ IH]; cbn [filter]; [constructor|].
  destruct (nonempty p); [constructor|]; auto using capitalize_alnum.
Qed.

(** The component name is made of letters and digits. *)
Lemma makeSafeComponentName_alnum (input : string) :
  all is_alnum (makeSafeComponentName input) = true.
Proof.
  unfold makeSafeComponentName.
  pose proof (toPascalCase_alnum _ (safeIdentifier_kept input)) as Hb.
  set (base := toPascalCase (safeIdentifier input)) in *.
  assert (Hf : all is_alnum
                 (if (0 <? String.length base)%nat then base
                  else "GeneratedForm") = true).
  { destruct (0 <? String.length base)%nat; [exact Hb | reflexivity]. }
  match goal with |- context [if starts_ident ?f then _ else _] =>
    destruct (starts_ident f) end; [exact Hf|].
  rewrite all_append, Hf. reflexivity.
Qed.

(** It starts with a letter or an underscore. *)
Lemma makeSafeComponentName_starts (input : string) :
  starts_ident (makeSafeComponentName input) = true.
Proof.
  unfold makeSafeComponentName.
  match goal with |- context [if starts_ident ?f then _ else _] =>
    destruct (starts_ident f) eqn:E end; [exact E | reflexivity].
Qed.

Lemma replace_runs_blank (in_run : bool) (s : string) :
  all (fun c => is_joiner c || is_space c) s = true ->
  all is_space (replace_runs in_run s) = true.
Proof.
  revert in_run. induction s as [|c s IH]; intros in_run; cbn [all replace_runs];
    [reflexivity|].
  intros H. apply andb_true_iff in H as [Hc Hs].
  destruct (is_joiner c) eqn:Ej.
  - destruct in_run; [now apply IH|]. cbn [all]. now rewrite IH.
  - cbn [all]. cbn [orb] in Hc. now rewrite Hc, IH.
Qed.

Lemma split_ws_blank (in_sep : bool) (s : string) :
  all is_space s = true ->
  filter nonempty (split_ws in_sep EmptyString s) = [].
Proof.
  revert in_sep. induction s as [|c s IH]; intros in_sep; cbn [all split_ws];
    [reflexivity|].
  intros H. apply andb_true_iff in H as [Hc Hs]. rewrite Hc.
  destruct in_sep; [now apply IH|]. cbn [filter nonempty]. now apply IH.
Qed.

Lemma toPascalCase_blank (s : string) :
  all (fun c => is_joiner c || is_space c) s = true ->
  toPascalCase s = EmptyString.
Proof.
  intros H. unfold toPascalCase.
  rewrite split_ws_blank; [reflexivity|]. now apply replace_runs_blank.
Qed.

(** An input without a letter or a digit gives the fixed name. *)
Lemma makeSafeComponentName_fallback (input : string) :
  all (fun c => negb (is_alnum c)) input = true ->
  makeSafeComponentName input = "GeneratedForm".
Proof.
  intros H. unfold makeSafeComponentName, safeIdentifier.
  set (cleaned := trim (replace_each (fun c => negb (is_kept c)) " " input)).
  assert (Hc : all (fun c => is_joiner c || is_space c) cleaned = true).
  { apply all_trim.
    apply all_replace_each with (p := fun c => negb (is_alnum c));
      [|reflexivity|exact H].
    intros c Hn Hk. apply negb_true_iff in Hn. apply negb_false_iff in Hk.
    unfold is_kept in Hk. rewrite Hn in Hk. exact Hk. }
  destruct (0 <? String.length cleaned)%nat; [|reflexivity].
  now rewrite (toPascalCase_blank _ Hc).
Qed.

End NamingFacts.

(** What holds of the name and of the escaping: whatever the form, the
    exported component is named by an identifier that starts with a letter
    or an underscore (and goes on with letters and digits); an id or title
    without a letter or a digit gives the fixed name [GeneratedForm], and
    the title [3rd Party!] gives [Form3rdParty]; the escaped title and
    description, if they were read as the text of a template literal,
    would hold no closing backtick and no opening [${], every backslash
    paired, and would denote the original text.  (The generated source
    does not read them so: see [embedded_title_opens_expression].) *)
Theorem exported_name_and_escaping (form : FormDefinition) :
  ReactTs.starts_ident (ReactTs.componentName form) = true
  /\ Str.all is_ident_char (ReactTs.componentName form) = true
  /\ (forall input,
        Str.all (fun c => negb (Str.is_alnum c)) input = true ->
        ReactTs.makeSafeComponentName input = "GeneratedForm")
  /\ (form_id form = EmptyString -> title form = "3rd Party!" ->
      ReactTs.componentName form = "Form3rdParty")
  /\ template_safe (ReactTs.embedded_title form)
  /\ ReactTs.template_value (ReactTs.embedded_title form) = title form
  /\ template_safe (ReactTs.embedded_description form)
  /\ (forall d, description form = Some d ->
                ReactTs.template_value (ReactTs.embedded_description form) = d).
Proof.
  repeat split.
  - apply NamingFacts.makeSafeComponentName_starts.
  - apply NamingFacts.all_impl with (p := Str.is_alnum).
    + intros c Hc. unfold is_ident_char. now rewrite Hc.
    + apply NamingFacts.makeSafeComponentName_alnum.
  - apply NamingFacts.makeSafeComponentName_fallback.
  - intros Hid Ht. unfold ReactTs.componentName. rewrite Hid, Ht. reflexivity.
  - apply EscapeFacts.escape_template_ok.
  - apply EscapeFacts.escape_template_value.
  - unfold template_safe, ReactTs.embedded_description.
    destruct (description form) as [d|]; [|reflexivity].
    destruct (ReactTs.nonempty d); [|reflexivity].
    apply EscapeFacts.escape_template_ok.
  - intros d Hd. unfold ReactTs.embedded_description. rewrite Hd.
    destruct d as [|c d]; [reflexivity|].
    apply EscapeFacts.escape_template_value.
Qed.

Lemma exported_name_and_escaping_witness :
  ReactTs.componentName (mkForm "3rd Party!" [nameField]) = "Form3rdParty"
  /\ ReactTs.makeSafeComponentName "?!" = "GeneratedForm"
  /\ ReactTs.template_value
       (ReactTs.embedded_title (mkForm "a`b${c}" [nameField]))
     = "a`b${c}".
Proof.
  destruct (exported_name_and_escaping (mkForm "3rd Party!" [nameField]))
    as [_ [_ [Hfall [Hname _]]]].
  destruct (exported_name_and_escaping (mkForm "a`b${c}" [nameField]))
    as [_ [_ [_ [_ [_ [Hval _]]]]]].
  split; [apply Hname; reflexivity|].
  split; [apply Hfall; reflexivity | exact Hval].
Defined.

Module JsxFacts.
Import Str ReactTs GeneratedJsx.

Lemma escaped_unit_jsx (c : ascii) (t : string) :
  all is_jsx_text_char (escaped_unit c t) = is_jsx_text_char c.
Proof.
  unfold escaped_unit.
  destruct (Ascii.eqb_spec c backslash) as [->|_]; [reflexivity|].
  destruct (Ascii.eqb_spec c backtick) as [->|_]; [reflexivity|].
  destruct (Ascii.eqb_spec c dollar) as [->|_].
  - destruct t as [|c' t']; [reflexivity|].
    destruct (Ascii.eqb c' lbrace); reflexivity.
  - cbn [all]. apply andb_true_r.
Qed.

(** The escaping adds backslashes and nothing else: braces and angle
    brackets go through as they are. *)
Lemma escape_keeps_jsx_breakers (s : string) :
  all is_jsx_text_char (escapeTemplateString s) = all is_jsx_text_char s.
Proof.
  induction s as [|c t IH]; [reflexivity|].
  rewrite EscapeFacts.escape_cons, NamingFacts.all_append,
    escaped_unit_jsx, IH.
  reflexivity.
Qed.

End JsxFacts.

(** C9 (the code departs from it): the title and the description are meant
    to reach the generated source escaped, so that an interpolation marker
    in them cannot break it.  [escapeTemplateString] escapes for a
    template literal, but the two texts are spliced as children of a JSX
    [div].  For the form titled [${alert(1)}] the generated line is
    [<div ...>\${alert(1)}</div>]: as JSX children that is the text [\$]
    followed by the brace that opens the expression [{alert(1)}].  In
    general the escaping leaves every brace and angle bracket of a title
    where it was. *)
Theorem embedded_title_opens_expression :
  GeneratedJsx.title_element (mkForm "${alert(1)}" [])
  = "<div style={{ fontSize: 18, fontWeight: 600 }}>\${alert(1)}</div>"
  /\ GeneratedJsx.jsx_text (ReactTs.embedded_title (mkForm "${alert(1)}" []))
     = ("\$", "{alert(1)}")
  /\ forall form : FormDefinition,
       Str.all GeneratedJsx.is_jsx_text_char (ReactTs.embedded_title form)
       = Str.all GeneratedJsx.is_jsx_text_char (title form).
Proof.
  split; [reflexivity|]. split; [reflexivity|].
  intros form. apply JsxFacts.escape_keeps_jsx_breakers.
Qed.

(** ** More on the validator *)

Module ValidatorExtras.

Lemma of_nat_lt (a b : nat) : lt (of_nat a) (of_nat b) = (a <? b)%nat.
Proof.
  unfold of_nat, of_Z. cbn [lt].
  destruct (Nat.ltb_spec a b) as [H|H].
  - apply negb_true_iff. destruct (Qle_bool _ _) eqn:E; [|reflexivity].
    apply Qle_bool_iff in E. rewrite <- Zle_Qle in E. lia.
  - apply negb_false_iff. apply Qle_bool_iff. rewrite <- Zle_Qle. lia.
Qed.

(** The gate of the number checks, for a value that is neither the empty
    string nor nullish. *)
Lemma number_gate (field : Field) (value : Val) :
  type field = "number" ->
  value <> VStr EmptyString ->
  nullish value = false ->
  isEmpty field value = false
  /\ negb match value with VStr EmptyString => true | _ => false end
     && negb (nullish value) = true.
Proof.
  intros Ht Hv Hn. unfold isEmpty. rewrite Ht. cbn [String.eqb Ascii.eqb Bool.eqb].
  destruct value as [| |b|n|s|l|l]; try discriminate; auto.
  destruct s; [now elim Hv | auto].
Qed.

Lemma number_not_text_like (t : string) :
  t = "number" -> is_text_like t = false.
Proof.
  intros ->. reflexivity.
Qed.

Section Rules.
Context (host : Host).

(** Input that does not read as a number is refused before any rule is
    looked at, so also when the field has no rules. *)
Theorem not_a_number (field : Field) (value : Val) :
  type field = "number" ->
  value <> VStr EmptyString ->
  nullish value = false ->
  isNaN (ToNumber host value) = true ->
  Components.validateValue host field value
    = Normal (Some (label field ++ " must be a number."))
  /\ Preview.validateValue host field value
    = Normal (Some (label field ++ " must be a number.")).
Proof.
  intros Ht Hv Hn Hnan.
  destruct (number_gate field value Ht Hv Hn) as [He Hg].
  unfold Components.validateValue, Preview.validateValue.
  rewrite He, andb_false_r, (number_not_text_like _ Ht), Ht.
  cbn [bind String.eqb Ascii.eqb Bool.eqb]. cbv zeta. rewrite Hg.
  unfold Components.number_checks, Preview.number_checks.
  rewrite Hnan. split; reflexivity.
Qed.

(** Fields of the types without rules ([select], [date], [checkbox] and any
    type the validator does not know) only go through the required check:
    whatever [rules] and the value are, the answer is the required message
    or [null], and nothing is thrown. *)
Theorem no_rules_for_other_types (field : Field) (value : Val) :
  is_text_like (type field) = false ->
  type field <> "number" ->
  (required field = Some true /\ empty_for (type field) value ->
   Components.validateValue host field value
     = Normal (Some (label field ++ " is required."))
   /\ Preview.validateValue host field value
     = Normal (Some (label field ++ " is required.")))
  /\ (~ (required field = Some true /\ empty_for (type field) value) ->
      Components.validateValue host field value = Normal None
      /\ Preview.validateValue host field value = Normal None).
Proof.
  intros Ht Hn. apply String.eqb_neq in Hn.
  unfold Components.validateValue, Preview.validateValue.
  rewrite Ht, Hn. cbn [bind]. split.
  - intros [Hr He]. apply empty_for_isEmpty in He.
    unfold is_required. rewrite Hr, He. split; reflexivity.
  - intros H.
    assert (E : is_required field && isEmpty field value = false).
    { destruct (is_required field) eqn:Hq; [|reflexivity].
      destruct (isEmpty field value) eqn:Hv; [|reflexivity].
      exfalso. apply H. split; [|now apply empty_for_isEmpty].
      unfold is_required in Hq.
      destruct (required field) as [[|]|]; try discriminate; reflexivity. }
    rewrite E. split; reflexivity.
Qed.

(** A field that is not required accepts a missing value ([null] or
    [undefined]), whatever its type and rules; nothing is thrown. *)
Theorem optional_missing_value_passes (field : Field) (value : Val) :
  required field <> Some true ->
  nullish value = true ->
  Components.validateValue host field value = Normal None
  /\ Preview.validateValue host field value = Normal None.
Proof.
  intros Hr Hn.
  assert (Hq : is_required field = false).
  { unfold is_required. destruct (required field) as [[|]|]; auto.
    now elim Hr. }
  unfold Components.validateValue, Preview.validateValue. rewrite Hq.
  cbn [andb]. cbv zeta.
  destruct value; try discriminate;
    destruct (is_text_like (type field)); cbn [bind];
    destruct (String.eqb (type field) "number"); split; reflexivity.
Qed.

End Rules.
Lemma text_like_not_checkbox (t : string) :
  is_text_like t = true -> String.eqb t "checkbox" = false.
Proof.
  unfold is_text_like. intros H.
  apply orb_true_iff in H as [H|H]; [apply orb_true_iff in H as [H|H]|];
    apply String.eqb_eq in H; subst t; reflexivity.
Qed.

(** The required check on a string, for a text-like field. *)
Lemma text_gate (field : Field) (s : string) :
  is_text_like (type field) = true ->
  ~ (required field = Some true /\ s = EmptyString) ->
  is_required field && isEmpty field (VStr s) = false.
Proof.
  intros Ht H. unfold isEmpty. rewrite (text_like_not_checkbox _ Ht).
  destruct (is_required field) eqn:Hq; [|reflexivity].
  destruct s; [|reflexivity].
  exfalso. apply H. split; [|reflexivity].
  unfold is_required in Hq.
  destruct (required field) as [[|]|]; try discriminate; reflexivity.
Qed.

Lemma bound_passes_lt (host : Host) (bound : Val) (n : Num) :
  lower_ok host bound n = true ->
  negb (nullish bound) && num_lt host n bound = false.
Proof.
  unfold lower_ok, num_lt. intros H.
  apply orb_true_iff in H as [->|H]; [reflexivity|].
  rewrite (le_not_lt _ _ H). apply andb_false_r.
Qed.

Lemma bound_passes_gt (host : Host) (bound : Val) (n : Num) :
  upper_ok host bound n = true ->
  negb (nullish bound) && num_gt host n bound = false.
Proof.
  unfold upper_ok, num_gt. intros H.
  apply orb_true_iff in H as [->|H]; [reflexivity|].
  rewrite (le_not_lt _ _ H). apply andb_false_r.
Qed.

Lemma get_defined (rules : Val) (k : string) :
  get rules k <> VUndefined -> nullish rules = false.
Proof.
  destruct rules; cbn; intros H; try reflexivity; now elim H.
Qed.

Section LengthAndPattern.
Context (host : Host).

(** With [rules.minLength = m], a string shorter than [m] code units gets
    the at-least message; a string of at least [m] code units, within
    [rules.maxLength] when that is set, and with no pattern to match,
    passes.  Both copies behave so. *)
Theorem length_rule (field : Field) (s : string) (m : nat) :
  is_text_like (type field) = true ->
  get (rules field) "minLength" = VNum (of_nat m) ->
  ~ (required field = Some true /\ s = EmptyString) ->
  ((String.length s < m)%nat ->
   Components.validateValue host field (VStr s)
     = Normal (Some (msg_min_length host field (VNum (of_nat m))))
   /\ Preview.validateValue host field (VStr s)
     = Normal (Some (msg_min_length host field (VNum (of_nat m)))))
  /\ ((m <= String.length s)%nat ->
      upper_ok host (get (rules field) "maxLength")
        (of_nat (String.length s)) = true ->
      truthy (get (rules field) "pattern") = false ->
      Components.validateValue host field (VStr s) = Normal None
      /\ Preview.validateValue host field (VStr s) = Normal None).
Proof.
  intros Ht Hmin Hreq.
  assert (Hr : nullish (rules field) = false).
  { apply get_defined with (k := "minLength"). rewrite Hmin. discriminate. }
  rewrite (validateValue_agree host _ _ Hr).
  unfold Preview.validateValue.
  rewrite (text_gate _ _ Ht Hreq), Ht, (text_like_not_number _ Ht).
  cbv zeta. unfold Preview.text_checks, member_opt. rewrite Hr, Hmin.
  cbv zeta. cbn [nullish negb andb].
  replace (num_lt host (of_nat (String.length s)) (VNum (of_nat m)))
    with (String.length s <? m)%nat by (symmetry; apply of_nat_lt).
  split.
  - intros Hlt. apply Nat.ltb_lt in Hlt. rewrite Hlt. split; reflexivity.
  - intros Hle Hmax Hpat. apply Nat.ltb_ge in Hle. rewrite Hle.
    rewrite (bound_passes_gt _ _ _ Hmax), Hpat. split; reflexivity.
Qed.

(** With the length rules satisfied, a pattern that compiles decides: the
    string passes when the regular expression finds a match in it and gets
    the format message when it does not. *)
Theorem pattern_rule (field : Field) (s p : string) (re : RegExp host) :
  is_text_like (type field) = true ->
  get (rules field) "pattern" = VStr p ->
  p <> EmptyString ->
  RegExp_new host p = Some re ->
  ~ (required field = Some true /\ s = EmptyString) ->
  lower_ok host (get (rules field) "minLength")
    (of_nat (String.length s)) = true ->
  upper_ok host (get (rules field) "maxLength")
    (of_nat (String.length s)) = true ->
  Components.validateValue host field (VStr s)
    = Normal (if RegExp_test host re s then None
              else Some (label field ++ " format is invalid."))
  /\ Preview.validateValue host field (VStr s)
    = Normal (if RegExp_test host re s then None
              else Some (label field ++ " format is invalid.")).
Proof.
  intros Ht Hpat Hp Hre Hreq Hmin Hmax.
  assert (Hr : nullish (rules field) = false).
  { apply get_defined with (k := "pattern"). rewrite Hpat. discriminate. }
  rewrite (validateValue_agree host _ _ Hr).
  unfold Preview.validateValue.
  rewrite (text_gate _ _ Ht Hreq), Ht, (text_like_not_number _ Ht).
  cbv zeta. unfold Preview.text_checks, member_opt. rewrite Hr, Hpat.
  cbv zeta.
  rewrite (bound_passes_lt _ _ _ Hmin), (bound_passes_gt _ _ _ Hmax).
  cbn [truthy ToString]. apply String.eqb_neq in Hp. rewrite Hp, Hre.
  cbn [negb]. destruct (RegExp_test host re s); split; reflexivity.
Qed.

(** A number below [rules.min] gets the at-least message, and a number
    that respects [rules.min] but exceeds [rules.max] gets the at-most
    message (the integer rule being off or satisfied). *)
Theorem bound_violations (field : Field) (value : Val) (m : Num) :
  type field = "number" ->
  value <> VStr EmptyString ->
  nullish value = false ->
  isNaN (ToNumber host value) = false ->
  truthy (get (rules field) "integer") && negb (isInteger (ToNumber host value))
    = false ->
  (get (rules field) "min" = VNum m ->
   lt (ToNumber host value) m = true ->
   Components.validateValue host field value
     = Normal (Some (label field ++ " must be at least "
                       ++ NumberToString host m ++ "."))
   /\ Preview.validateValue host field value
     = Normal (Some (label field ++ " must be at least "
                       ++ NumberToString host m ++ ".")))
  /\ (get (rules field) "max" = VNum m ->
      lower_ok host (get (rules field) "min") (ToNumber host value) = true ->
      lt m (ToNumber host value) = true ->
      Components.validateValue host field value
        = Normal (Some (label field ++ " must be at most "
                          ++ NumberToString host m ++ "."))
      /\ Preview.validateValue host field value
        = Normal (Some (label field ++ " must be at most "
                          ++ NumberToString host m ++ "."))).
Proof.
  intros Ht Hv Hn Hnan Hint.
  destruct (number_gate field value Ht Hv Hn) as [He Hg].
  assert (Hbody : forall r,
             nullish (rules field) = false ->
             Preview.number_checks host field (rules field) value = Normal r ->
             Components.validateValue host field value = Normal r
             /\ Preview.validateValue host field value = Normal r).
  { intros r Hr Hc. rewrite (validateValue_agree host _ _ Hr).
    unfold Preview.validateValue.
    rewrite He, andb_false_r, (number_not_text_like _ Ht), Ht.
    cbn [bind String.eqb Ascii.eqb Bool.eqb]. cbv zeta.
    rewrite Hg, Hc. split; reflexivity. }
  split.
  - intros Hmin Hlt.
    assert (Hr : nullish (rules field) = false).
    { apply get_defined with (k := "min"). rewrite Hmin. discriminate. }
    apply Hbody; [exact Hr|].
    unfold Preview.number_checks, member_opt. rewrite Hr, Hnan. cbv zeta.
    rewrite Hint, Hmin. unfold num_lt. cbn [ToNumber nullish negb andb].
    rewrite Hlt. reflexivity.
  - intros Hmax Hlo Hgt.
    assert (Hr : nullish (rules field) = false).
    { apply get_defined with (k := "max"). rewrite Hmax. discriminate. }
    apply Hbody; [exact Hr|].
    unfold Preview.number_checks, member_opt. rewrite Hr, Hnan. cbv zeta.
    rewrite Hint, (bound_passes_lt _ _ _ Hlo), Hmax.
    unfold num_gt. cbn [ToNumber nullish negb andb].
    rewrite Hgt. reflexivity.
Qed.


End LengthAndPattern.
Lemma not_a_number_witness :
  Components.validateValue Fixture.host
    (mkField "age" "Age" "number" None VUndefined) (VStr "abc")
  = Normal (Some "Age must be a number.").
Proof.
  apply (not_a_number Fixture.host
           (mkField "age" "Age" "number" None VUndefined) (VStr "abc"));
    [reflexivity | discriminate | reflexivity | reflexivity].
Defined.

Lemma no_rules_for_other_types_witness :
  Components.validateValue Fixture.host consentField (VBool false)
  = Normal None
  /\ Components.validateValue Fixture.host
       (mkField "terms" "Terms" "checkbox" (Some true) VUndefined)
       (VBool false)
     = Normal (Some "Terms is required.").
Proof.
  split.
  - apply (no_rules_for_other_types Fixture.host consentField (VBool false));
      [reflexivity | discriminate | intros [H _]; discriminate H].
  - apply (no_rules_for_other_types Fixture.host
             (mkField "terms" "Terms" "checkbox" (Some true) VUndefined)
             (VBool false)); [reflexivity | discriminate |].
    split; [reflexivity | left; split; [reflexivity | discriminate]].
Defined.

Lemma optional_missing_value_passes_witness :
  Components.validateValue Fixture.host nameField VUndefined = Normal None.
Proof.
  apply (optional_missing_value_passes Fixture.host nameField VUndefined);
    [discriminate | reflexivity].
Defined.

Lemma length_rule_witness :
  Components.validateValue Fixture.host
    (mkField "nick" "Nick" "text" None (VObj [("minLength", VNum (of_nat 2))]))
    (VStr "x")
  = Normal (Some "Nick must be at least 2 characters.")
  /\ Components.validateValue Fixture.host
       (mkField "nick" "Nick" "text" None
          (VObj [("minLength", VNum (of_nat 2))]))
       (VStr "xy")
     = Normal None.
Proof.
  split.
  - apply (length_rule Fixture.host
             (mkField "nick" "Nick" "text" None
                (VObj [("minLength", VNum (of_nat 2))])) "x" 2);
      [reflexivity | reflexivity | intros [H _]; discriminate H | cbn; lia].
  - apply (length_rule Fixture.host
             (mkField "nick" "Nick" "text" None
                (VObj [("minLength", VNum (of_nat 2))])) "xy" 2);
      [reflexivity | reflexivity | intros [H _]; discriminate H
      | cbn; lia | reflexivity | reflexivity].
Defined.

Lemma pattern_rule_witness :
  Components.validateValue Fixture.host
    (mkField "code" "Code" "text" None (VObj [("pattern", VStr "ab")]))
    (VStr "cabd")
  = Normal None.
Proof.
  apply (pattern_rule Fixture.host
           (mkField "code" "Code" "text" None (VObj [("pattern", VStr "ab")]))
           "cabd" "ab" "ab");
    [reflexivity | reflexivity | discriminate | reflexivity
    | intros [H _]; discriminate H | reflexivity | reflexivity].
Defined.

Lemma bound_violations_witness :
  Components.validateValue Fixture.host ageField (VStr "17")
  = Normal (Some "Age must be at least 18.").
Proof.
  apply (bound_violations Fixture.host ageField (VStr "17") (of_Z 18));
    [reflexivity | discriminate | reflexivity | reflexivity | reflexivity
    | reflexivity | reflexivity].
Defined.


End ValidatorExtras.

(** ** Submission and default values *)

Module RendererFacts.
Import SchemaGenerator Renderer.


Section Messages.
Context (host : Host).





(** In the [components] copy one field whose validation throws aborts the
    whole submission, and nothing else does. *)
Theorem onSubmit_throws_iff (form : FormDefinition) (values : FormValues) :
  onSubmit (Components.validateValue host) form values = Throw TypeError
  <-> exists f, In f (fields form)
                /\ Components.validateValue host f (read values (name f))
                   = Throw TypeError.
Proof.
  unfold onSubmit.
  assert (H : forall fields st,
             check_fields (Components.validateValue host) values st fields
             = Throw TypeError
             <-> exists f, In f fields
                           /\ Components.validateValue host f
                                (read values (name f)) = Throw TypeError).
  { intros l. induction l as [|f l IH]; intros st; cbn [check_fields].
    - split; [intros E; discriminate E | intros [g [[] _]]].
    - unfold check_field at 1.
      destruct (Components.validateValue host f (read values (name f)))
        as [r|[]] eqn:Hr; cbn [bind].
      + assert (Hnext : forall st',
                   check_fields (Components.validateValue host) values st' l
                   = Throw TypeError
                   <-> exists g, In g (f :: l)
                                 /\ Components.validateValue host g
                                      (read values (name g)) = Throw TypeError).
        { intros st'. rewrite IH. split.
          - intros [g [Hg Hv]]. exists g. cbn [In]. auto.
          - intros [g [[<-|Hg] Hv]]; [congruence | eauto]. }
        destruct r as [m|]; [destruct (ReactTs.nonempty m)|];
          cbn [bind]; apply Hnext.
      + split; [intros _; exists f; cbn [In]; auto | reflexivity]. }
  specialize (H (fields form) {| hasError := false; errors := [] |}).
  rewrite <- H.
  destruct (check_fields (Components.validateValue host) values
              {| hasError := false; errors := [] |} (fields form))
    as [st|[]]; cbn [bind].
  - destruct (hasError st); split; discriminate.
  - split; reflexivity.
Qed.

End Messages.
Lemma defaults_other_names (k : string) (l : list Field) (d : FormValues) :
  (forall g, In g l -> name g <> k) ->
  dict_get k
    (fold_left
       (fun defaults field => dict_set (name field) (default_of field) defaults)
       l d)
  = dict_get k d.
Proof.
  revert d. induction l as [|f l IH]; intros d Hl; cbn [fold_left].
  - reflexivity.
  - rewrite IH by (intros g Hg; apply Hl; now right).
    apply SchemaFacts.dict_get_set_other. intros ->.
    apply (Hl f); [left|]; reflexivity.
Qed.

(** The default stored under a name is that of the last field with the
    name. *)
Lemma defaults_last_writer (pre post : list Field) (f : Field) :
  (forall g, In g post -> name g <> name f) ->
  read (buildDefaultValues (pre ++ f :: post)%list) (name f) = default_of f.
Proof.
  intros Hpost. unfold read, buildDefaultValues.
  rewrite fold_left_app. cbn [fold_left].
  rewrite defaults_other_names by exact Hpost.
  now rewrite SchemaFacts.dict_get_set_same.
Qed.

Lemma defaults_unique_names (fields : list Field) (f : Field) :
  NoDup (map name fields) ->
  In f fields ->
  read (buildDefaultValues fields) (name f) = default_of f.
Proof.
  intros Hnd Hin. apply in_split in Hin as [pre [post ->]].
  apply defaults_last_writer. intros g Hg Heq.
  rewrite map_app in Hnd. cbn [map] in Hnd.
  apply NoDup_remove_2 in Hnd. apply Hnd.
  apply in_or_app. right. rewrite <- Heq. now apply in_map.
Qed.

Lemma default_is_empty (f : Field) : isEmpty f (default_of f) = true.
Proof.
  unfold isEmpty, default_of.
  destruct (String.eqb (type f) "checkbox"); reflexivity.
Qed.

Section Defaults.
Context (host : Host).

Lemma default_of_required_refused (form : FormDefinition) (f : Field) :
  NoDup (map name (fields form)) ->
  In f (fields form) ->
  required f = Some true ->
  Components.validateValue host f
    (read (buildDefaultValues (fields form)) (name f))
  = Normal (Some (label f ++ " is required."))
  /\ Preview.validateValue host f
       (read (buildDefaultValues (fields form)) (name f))
     = Normal (Some (label f ++ " is required.")).
Proof.
  intros Hnd Hin Hreq. rewrite (defaults_unique_names _ _ Hnd Hin).
  unfold Components.validateValue, Preview.validateValue, is_required.
  rewrite Hreq, default_is_empty. split; reflexivity.
Qed.

(** In a form whose field names are names the builder accepts and are all
    different, a required field left at its default value ([false] for a
    checkbox, the empty string otherwise) is refused with the required
    message, by both copies. *)
Theorem untouched_required_field_rejected (form : FormDefinition)
  (f : Field) :
  (forall g, In g (fields form) ->
             Builder.isValidFieldName (name g) = true) ->
  NoDup (map name (fields form)) ->
  In f (fields form) ->
  required f = Some true ->
  Components.validateValue host f
    (read (buildDefaultValues (fields form)) (name f))
  = Normal (Some (label f ++ " is required."))
  /\ Preview.validateValue host f
       (read (buildDefaultValues (fields form)) (name f))
     = Normal (Some (label f ++ " is required.")).
Proof.
  intros _. apply default_of_required_refused.
Qed.


End Defaults.


Lemma onSubmit_throws_iff_witness :
  onSubmit (Components.validateValue Fixture.host)
    (mkForm "Signup" [emailField; nameField])
    [("email", VStr "a@b.c"); ("name", VStr "Ann")]
  = Throw TypeError.
Proof.
  apply (onSubmit_throws_iff Fixture.host
           (mkForm "Signup" [emailField; nameField])
           [("email", VStr "a@b.c"); ("name", VStr "Ann")]).
  exists emailField. split; [left; reflexivity | reflexivity].
Defined.

Lemma untouched_required_field_rejected_witness :
  Components.validateValue Fixture.host emailField
    (read (buildDefaultValues [nameField; emailField]) "email")
  = Normal (Some "Email is required.").
Proof.
  apply (untouched_required_field_rejected Fixture.host
           (mkForm "Signup" [nameField; emailField]) emailField).
  - intros g [<-|[<-|[]]]; reflexivity.
  - repeat constructor; cbn; intuition discriminate.
  - right. left. reflexivity.
  - reflexivity.
Defined.


End RendererFacts.

(** ** More on the schema generator *)

Module SchemaExtras.
Import SchemaGenerator.

Lemma dict_set_keys {A} (k : string) (v : A) (d : Dict A) :
  map fst (dict_set k v d)
  = if existsb (String.eqb k) (map fst d) then map fst d
    else (map fst d ++ [k])%list.
Proof.
  induction d as [|[k' v'] d IH]; cbn; [reflexivity|].
  destruct (String.eqb_spec k k') as [->|Hk]; cbn; [reflexivity|].
  rewrite IH. destruct (existsb (String.eqb k) (map fst d)); reflexivity.
Qed.

Lemma existsb_eqb_In (k : string) (l : list string) :
  existsb (String.eqb k) l = true <-> In k l.
Proof.
  rewrite existsb_exists. split.
  - intros [x [Hx E]]. apply String.eqb_eq in E. now subst.
  - intros H. exists k. split; [exact H | apply String.eqb_refl].
Qed.

Lemma dict_set_NoDup {A} (k : string) (v : A) (d : Dict A) :
  NoDup (map fst d) -> NoDup (map fst (dict_set k v d)).
Proof.
  intros H. rewrite dict_set_keys.
  destruct (existsb (String.eqb k) (map fst d)) eqn:E; [exact H|].
  apply NoDup_app; [exact H | repeat constructor; intros [] |].
  intros x Hx [<-|[]].
  apply existsb_eqb_In in Hx. congruence.
Qed.

Lemma dict_set_In {A} (k x : string) (v : A) (d : Dict A) :
  In x (map fst (dict_set k v d)) <-> x = k \/ In x (map fst d).
Proof.
  rewrite dict_set_keys.
  destruct (existsb (String.eqb k) (map fst d)) eqn:E.
  - apply existsb_eqb_In in E. split; [auto|]. intros [->|H]; auto.
  - rewrite in_app_iff. cbn. split; intros [H|H]; auto.
    + destruct H as [<-|[]]. auto.
Qed.

Lemma dict_get_In {A} (k : string) (d : Dict A) :
  In k (map fst d) <-> exists v, dict_get k d = Some v.
Proof.
  induction d as [|[k' v'] d IH]; cbn.
  - split; [intros [] | intros [v H]; discriminate].
  - destruct (String.eqb_spec k k') as [->|Hk].
    + split; eauto.
    + rewrite <- IH. split; [intros [E|H]; [congruence | exact H] | auto].
Qed.

(** The keys of [properties] after the loop. *)
Lemma collect_keys (l : list Field) (p : Dict JsonSchemaProperty)
  (r : list string) :
  NoDup (map fst p) ->
  NoDup (map fst (fst (fold_left collect_field l (p, r))))
  /\ (forall k,
         In k (map fst (fst (fold_left collect_field l (p, r))))
         <-> In k (map fst p) \/ In k (map name l)).
Proof.
  revert p r. induction l as [|f l IH]; intros p r Hp; cbn [fold_left].
  - split; [exact Hp|]. intros k. cbn. tauto.
  - unfold collect_field at 2 4.
    destruct (IH (dict_set (name f) (fieldToJsonSchema f) p)
                (if is_required f then (r ++ [name f])%list else r)
                (dict_set_NoDup _ _ _ Hp)) as [Hnd Hin].
    split; [exact Hnd|].
    intros k. rewrite Hin, dict_set_In. cbn [map In].
    split; intros H; intuition auto.
Qed.

(** With different names nothing is overwritten: the entries are those of
    the fields, in field order. *)
Lemma collect_unique (l : list Field) (p : Dict JsonSchemaProperty)
  (r : list string) :
  NoDup (map fst p ++ map name l) ->
  fst (fold_left collect_field l (p, r))
  = (p ++ map (fun f => (name f, fieldToJsonSchema f)) l)%list.
Proof.
  revert p r. induction l as [|f l IH]; intros p r Hnd; cbn [fold_left map].
  - now rewrite app_nil_r.
  - unfold collect_field at 2.
    assert (Hset : dict_set (name f) (fieldToJsonSchema f) p
                   = (p ++ [(name f, fieldToJsonSchema f)])%list).
    { apply NoDup_remove_2 in Hnd.
      assert (Hk : ~ In (name f) (map fst p)).
      { intros H. apply Hnd. apply in_or_app. now left. }
      clear - Hk. induction p as [|[k v] p IHp]; cbn; [reflexivity|].
      destruct (String.eqb_spec (name f) k) as [E|E].
      - exfalso. apply Hk. left. now symmetry.
      - rewrite IHp; [reflexivity|]. intros H. apply Hk. now right. }
    rewrite Hset, IH.
    + now rewrite <- app_assoc.
    + rewrite map_app. cbn [map fst]. rewrite <- app_assoc. exact Hnd.
Qed.

(** In a form whose field names are names the builder accepts, the keys
    of [properties] are the field names, each once. *)
Theorem properties_one_entry_per_name (form : FormDefinition) :
  (forall g, In g (fields form) ->
             Builder.isValidFieldName (name g) = true) ->
  NoDup (map fst (properties (generateJsonSchema form)))
  /\ (forall k,
         In k (map fst (properties (generateJsonSchema form)))
         <-> In k (map name (fields form))).
Proof.
  intros _. rewrite SchemaFacts.generateJsonSchema_properties.
  destruct (collect_keys (fields form) [] [] (NoDup_nil _)) as [Hnd Hin].
  split; [exact Hnd|].
  intros k. rewrite Hin. cbn. tauto.
Qed.

Lemma properties_one_entry_per_name_witness :
  NoDup
    (map fst
       (properties (generateJsonSchema (mkForm "Signup" [nameField; emailField]))))
  /\ (In "email"
        (map fst
           (properties
              (generateJsonSchema (mkForm "Signup" [nameField; emailField]))))).
Proof.
  destruct (properties_one_entry_per_name
              (mkForm "Signup" [nameField; emailField])) as [Hnd Hin].
  - intros g [<-|[<-|[]]]; reflexivity.
  - split; [exact Hnd|]. apply Hin. right. left. reflexivity.
Defined.

(** When the field names are names the builder accepts and are all
    different, [properties] lists the fields in their order, each under
    its name with its own schema. *)
Theorem properties_in_field_order (form : FormDefinition) :
  (forall g, In g (fields form) ->
             Builder.isValidFieldName (name g) = true) ->
  NoDup (map name (fields form)) ->
  properties (generateJsonSchema form)
  = map (fun f => (name f, fieldToJsonSchema f)) (fields form).
Proof.
  intros _ Hnd. rewrite SchemaFacts.generateJsonSchema_properties.
  now rewrite collect_unique.
Qed.

(** Whatever the names are, the entry under a name is the schema of the
    last field that carries it. *)
Theorem properties_last_field_wins (form : FormDefinition)
  (pre post : list Field) (f : Field) :
  fields form = (pre ++ f :: post)%list ->
  (forall g, In g post -> name g <> name f) ->
  dict_get (name f) (properties (generateJsonSchema form))
  = Some (fieldToJsonSchema f).
Proof.
  intros Hf Hpost. rewrite SchemaFacts.generateJsonSchema_properties, Hf.
  now apply SchemaFacts.collect_last_writer.
Qed.

(** In a form whose field names are names the builder accepts, every name
    listed under [required] has an entry in [properties]. *)
Theorem required_names_have_properties (form : FormDefinition)
  (names : list string) (n : string) :
  (forall g, In g (fields form) ->
             Builder.isValidFieldName (name g) = true) ->
  schema_required (generateJsonSchema form) = Some names ->
  In n names ->
  exists p, dict_get n (properties (generateJsonSchema form)) = Some p.
Proof.
  intros _. rewrite SchemaFacts.generateJsonSchema_required. intros Hreq Hn.
  assert (Hin : In n (map name (filter is_required (fields form)))).
  { destruct (map name (filter is_required (fields form)));
      [discriminate | injection Hreq as <-; exact Hn]. }
  apply in_map_iff in Hin as [f [<- Hf]]. apply filter_In in Hf as [Hf _].
  apply dict_get_In.
  rewrite SchemaFacts.generateJsonSchema_properties.
  apply (collect_keys (fields form) [] [] (NoDup_nil _)).
  right. now apply in_map.
Qed.

(** The [type] of a property schema is one of four names, decided by the
    field type: ["boolean"] for a checkbox and nothing else, ["number"] or
    ["integer"] for a number field and nothing else, ["integer"] exactly
    when [rules.integer] is the boolean [true]. *)
Theorem property_type_by_field_type (f : Field) :
  In (property_type (fieldToJsonSchema f))
    ["string"; "number"; "integer"; "boolean"]
  /\ (property_type (fieldToJsonSchema f) = "boolean"
      <-> type f = "checkbox")
  /\ (property_type (fieldToJsonSchema f) = "number"
      \/ property_type (fieldToJsonSchema f) = "integer"
      <-> type f = "number")
  /\ (property_type (fieldToJsonSchema f) = "integer"
      <-> type f = "number" /\ get (rules f) "integer" = VBool true).
Proof.
  unfold fieldToJsonSchema.
  destruct (is_text_like (type f)) eqn:Ht.
  { pose proof (text_like_not_number _ Ht) as Hn.
    pose proof (ValidatorExtras.text_like_not_checkbox _ Ht) as Hc.
    apply String.eqb_neq in Hn, Hc. cbn [property_type].
    split; [cbn; tauto | intuition congruence]. }
  destruct (String.eqb_spec (type f) "number") as [Hn|Hn].
  { cbn [property_type]. rewrite ProjectionFacts.numberToJsonSchema_reads.
    cbn [number_type]. unfold readBoolean.
    destruct (get (rules f) "integer") as [| |[|]| | | |] eqn:E;
      (split; [cbn; tauto | intuition congruence]). }
  destruct (String.eqb_spec (type f) "date") as [Hd|Hd].
  { cbn [property_type]. split; [cbn; tauto | intuition congruence]. }
  destruct (String.eqb_spec (type f) "select") as [Hs|Hs].
  { cbn [property_type]. split; [cbn; tauto | intuition congruence]. }
  destruct (String.eqb_spec (type f) "checkbox") as [Hc|Hc].
  { cbn [property_type]. split; [cbn; tauto | intuition congruence]. }
  cbn [property_type]. split; [cbn; tauto | intuition congruence].
Qed.

Lemma schema_pattern_source (f : Field) (p : string) :
  pattern (textToJsonSchema f) = Some p ->
  get (rules f) "pattern" = VStr p
  /\ p <> EmptyString
  /\ Str.trim p <> EmptyString.
Proof.
  rewrite ProjectionFacts.textToJsonSchema_reads. cbn [pattern].
  unfold readString.
  destruct (get (rules f) "pattern") as [| | | |s| |]; try discriminate.
  destruct (String.eqb_spec s EmptyString) as [E|E]; [discriminate|].
  destruct (String.eqb_spec (Str.trim s) EmptyString) as [E'|E'];
    [discriminate|].
  cbn [negb andb]. intros H. injection H as <-. auto.
Qed.

(** A [pattern] reaches the schema only as the string stored in
    [rules.pattern], and never when that string is empty or blank. *)
Theorem schema_pattern_never_blank (f : Field) (p : string) :
  pattern (textToJsonSchema f) = Some p ->
  get (rules f) "pattern" = VStr p
  /\ p <> EmptyString
  /\ Str.trim p <> EmptyString.
Proof.
  apply schema_pattern_source.
Qed.

Section Consistency.
Context (host : Host).

(** What the [components] copy returns, the [preview] copy returns too. *)
Lemma components_result_is_preview_result (field : Field) (value : Val)
  (r : option string) :
  Components.validateValue host field value = Normal r ->
  Preview.validateValue host field value = Normal r.
Proof.
  destruct (nullish (rules field)) eqn:Hr.
  2:{ now rewrite (validateValue_agree host _ _ Hr). }
  unfold Components.validateValue, Preview.validateValue.
  destruct (is_required field && isEmpty field value); [auto|].
  cbv zeta.
  destruct (is_text_like (type field)) eqn:Ht.
  - rewrite (text_like_not_number _ Ht).
    destruct value; cbn [bind]; auto.
    unfold Components.text_checks. rewrite (member_nullish _ _ Hr).
    discriminate.
  - cbn [bind]. destruct (String.eqb (type field) "number"); [|auto].
    match goal with |- context [if ?b then _ else _] => destruct b end;
      [|auto].
    unfold Components.number_checks, Preview.number_checks.
    destruct (isNaN (ToNumber host value)); [auto|].
    rewrite (member_nullish _ _ Hr). discriminate.
Qed.

(** A number the validator accepts satisfies the numeric keywords of the
    schema generated for the same field: it is a number, it is integral
    when the schema says ["integer"], and it is neither below [minimum]
    nor above [maximum]. *)
Theorem accepted_number_fits_schema (field : Field) (value : Val) :
  type field = "number" ->
  value <> VStr EmptyString ->
  nullish value = false ->
  Components.validateValue host field value = Normal None
  \/ Preview.validateValue host field value = Normal None ->
  isNaN (ToNumber host value) = false
  /\ (number_type (numberToJsonSchema field) = "integer" ->
      isInteger (ToNumber host value) = true)
  /\ (forall m, minimum (numberToJsonSchema field) = Some m ->
                lt (ToNumber host value) m = false)
  /\ (forall m, maximum (numberToJsonSchema field) = Some m ->
                lt m (ToNumber host value) = false).
Proof.
  intros Ht Hv Hn Hacc.
  assert (H : Preview.validateValue host field value = Normal None).
  { destruct Hacc as [H|H]; [|exact H].
    now apply components_result_is_preview_result. }
  clear Hacc.
  destruct (ValidatorExtras.number_gate field value Ht Hv Hn) as [He Hg].
  unfold Preview.validateValue in H.
  rewrite He, andb_false_r, (ValidatorExtras.number_not_text_like _ Ht), Ht in H.
  cbn [bind String.eqb Ascii.eqb Bool.eqb] in H. cbv zeta in H.
  rewrite Hg in H. unfold Preview.number_checks in H. cbv zeta in H.
  rewrite ProjectionFacts.numberToJsonSchema_reads.
  cbn [number_type minimum maximum]. unfold readBoolean, readNumber.
  destruct (isNaN (ToNumber host value)); [discriminate|].
  split; [reflexivity|].
  assert (Hget : forall k, member_opt (rules field) k = get (rules field) k).
  { intros k. unfold member_opt.
    destruct (rules field); reflexivity. }
  rewrite !Hget in H.
  destruct (truthy (get (rules field) "integer")
            && negb (isInteger (ToNumber host value))) eqn:Ei;
    [discriminate|].
  destruct (negb (nullish (get (rules field) "min"))
            && num_lt host (ToNumber host value) (get (rules field) "min"))
    eqn:Emin; [discriminate|].
  destruct (negb (nullish (get (rules field) "max"))
            && num_gt host (ToNumber host value) (get (rules field) "max"))
    eqn:Emax; [discriminate|].
  split; [|split].
  - destruct (get (rules field) "integer") as [| |[|]| | | |];
      try discriminate.
    intros _. cbn [truthy andb] in Ei. now apply negb_false_iff in Ei.
  - intros m Hm.
    destruct (get (rules field) "min"); try discriminate.
    injection Hm as ->. exact Emin.
  - intros m Hm.
    destruct (get (rules field) "max"); try discriminate.
    injection Hm as ->. exact Emax.
Qed.

(** A string the validator accepts satisfies the string keywords of the
    schema generated for the same field: its length is neither below
    [minLength] nor above [maxLength], and the [pattern], when it compiles,
    finds a match in it. *)
Theorem accepted_text_fits_schema (field : Field) (s : string) :
  is_text_like (type field) = true ->
  Components.validateValue host field (VStr s) = Normal None
  \/ Preview.validateValue host field (VStr s) = Normal None ->
  (forall m, minLength (textToJsonSchema field) = Some m ->
             lt (of_nat (String.length s)) m = false)
  /\ (forall m, maxLength (textToJsonSchema field) = Some m ->
                lt m (of_nat (String.length s)) = false)
  /\ (forall p re, pattern (textToJsonSchema field) = Some p ->
                   RegExp_new host p = Some re ->
                   RegExp_test host re s = true).
Proof.
  intros Ht Hacc.
  assert (H : Preview.validateValue host field (VStr s) = Normal None).
  { destruct Hacc as [H|H]; [|exact H].
    now apply components_result_is_preview_result. }
  clear Hacc.
  unfold Preview.validateValue in H.
  destruct (is_required field && isEmpty field (VStr s)); [discriminate|].
  rewrite Ht, (text_like_not_number _ Ht) in H. cbv zeta in H.
  unfold Preview.text_checks in H. cbv zeta in H.
  assert (Hget : forall k, member_opt (rules field) k = get (rules field) k).
  { intros k. unfold member_opt.
    destruct (rules field); reflexivity. }
  rewrite !Hget in H.
  destruct (negb (nullish (get (rules field) "minLength"))
            && num_lt host (of_nat (String.length s))
                 (get (rules field) "minLength")) eqn:Emin;
    [discriminate|].
  destruct (negb (nullish (get (rules field) "maxLength"))
            && num_gt host (of_nat (String.length s))
                 (get (rules field) "maxLength")) eqn:Emax;
    [discriminate|].
  split; [|split].
  - intros m Hm.
    rewrite ProjectionFacts.textToJsonSchema_reads in Hm.
    cbn [minLength] in Hm. unfold readNumber in Hm.
    destruct (get (rules field) "minLength"); try discriminate.
    injection Hm as ->. exact Emin.
  - intros m Hm.
    rewrite ProjectionFacts.textToJsonSchema_reads in Hm.
    cbn [maxLength] in Hm. unfold readNumber in Hm.
    destruct (get (rules field) "maxLength"); try discriminate.
    injection Hm as ->. exact Emax.
  - intros p re Hp Hre.
    apply schema_pattern_source in Hp as [Hp [Hne _]].
    rewrite Hp in H. cbn [truthy ToString] in H.
    apply String.eqb_neq in Hne. rewrite Hne, Hre in H. cbn [negb] in H.
    destruct (RegExp_test host re s); [reflexivity|].
    cbn [bind negb] in H. discriminate.
Qed.

End Consistency.
(** The [components] copy refines the [preview] copy: whenever it returns
    a message or [null], the other copy returns the same. *)
Theorem components_refines_preview (host : Host) (field : Field)
  (value : Val) (r : option string) :
  Components.validateValue host field value = Normal r ->
  Preview.validateValue host field value = Normal r.
Proof.
  apply components_result_is_preview_result.
Qed.

Lemma components_refines_preview_witness :
  Preview.validateValue Fixture.host ageField (VStr "17")
  = Normal (Some "Age must be at least 18.").
Proof.
  apply (components_refines_preview Fixture.host ageField (VStr "17")).
  reflexivity.
Defined.

Lemma properties_in_field_order_witness :
  properties (generateJsonSchema (mkForm "Signup" [nameField; emailField]))
  = [("name", fieldToJsonSchema nameField);
     ("email", fieldToJsonSchema emailField)].
Proof.
  apply (properties_in_field_order (mkForm "Signup" [nameField; emailField])).
  - intros g [<-|[<-|[]]]; reflexivity.
  - repeat constructor; cbn; intuition discriminate.
Defined.

Lemma properties_last_field_wins_witness :
  dict_get "email"
    (properties (generateJsonSchema (mkForm "Signup" [emailField; consentField])))
  = Some OfBoolean.
Proof.
  apply (properties_last_field_wins
           (mkForm "Signup" [emailField; consentField])
           [emailField] [] consentField eq_refl).
  intros g [].
Defined.

Lemma required_names_have_properties_witness :
  exists p,
    dict_get "email"
      (properties (generateJsonSchema (mkForm "Signup" [nameField; emailField])))
    = Some p.
Proof.
  apply (required_names_have_properties
           (mkForm "Signup" [nameField; emailField]) ["email"] "email");
    [intros g [<-|[<-|[]]]; reflexivity | reflexivity | left; reflexivity].
Defined.

Lemma schema_pattern_never_blank_witness :
  get (rules (mkField "code" "Code" "text" None
                (VObj [("pattern", VStr "^[a-z]+$")]))) "pattern"
  = VStr "^[a-z]+$"
  /\ "^[a-z]+$" <> EmptyString
  /\ Str.trim "^[a-z]+$" <> EmptyString.
Proof.
  apply (schema_pattern_never_blank
           (mkField "code" "Code" "text" None
              (VObj [("pattern", VStr "^[a-z]+$")]))).
  reflexivity.
Defined.

Lemma accepted_number_fits_schema_witness :
  isNaN (ToNumber Fixture.host (VStr "21")) = false
  /\ (number_type (numberToJsonSchema ageField) = "integer" ->
      isInteger (ToNumber Fixture.host (VStr "21")) = true)
  /\ (forall m, minimum (numberToJsonSchema ageField) = Some m ->
                lt (ToNumber Fixture.host (VStr "21")) m = false)
  /\ (forall m, maximum (numberToJsonSchema ageField) = Some m ->
                lt m (ToNumber Fixture.host (VStr "21")) = false).
Proof.
  apply (accepted_number_fits_schema Fixture.host ageField (VStr "21"));
    [reflexivity | discriminate | reflexivity | left; reflexivity].
Defined.

Lemma accepted_text_fits_schema_witness :
  lt (of_nat (String.length "xy")) (of_nat 2) = false.
Proof.
  apply (proj1 (accepted_text_fits_schema Fixture.host
                  (mkField "nick" "Nick" "text" None
                     (VObj [("minLength", VNum (of_nat 2))])) "xy"
                  eq_refl (or_introl eq_refl))
           (of_nat 2)).
  reflexivity.
Defined.

End SchemaExtras.

(** ** More on the exporter *)

Module ExporterExtras.
Import Str ReactTs.

Lemma alnum_not_space (c : ascii) : is_alnum c = true -> is_space c = false.
Proof.
  destruct c as [[] [] [] [] [] [] [] []]; vm_compute; trivial;
    intros H; discriminate H.
Qed.

Lemma alnum_not_joiner (c : ascii) : is_alnum c = true -> is_joiner c = false.
Proof.
  destruct c as [[] [] [] [] [] [] [] []]; vm_compute; trivial;
    intros H; discriminate H.
Qed.

Lemma upper_facts (c : ascii) :
  is_upper c = true -> toUpperCase1 c = c /\ is_alpha c = true.
Proof.
  destruct c as [[] [] [] [] [] [] [] []]; vm_compute; auto;
    intros H; discriminate H.
Qed.

Lemma toUpperCase1_alpha_upper (c : ascii) :
  is_alnum c = true ->
  is_alpha (toUpperCase1 c) = true -> is_upper (toUpperCase1 c) = true.
Proof.
  destruct c as [[] [] [] [] [] [] [] []]; vm_compute; trivial.
Qed.

Lemma alnum_not_underscore (c : ascii) :
  is_alnum c = true -> Ascii.eqb c underscore = false.
Proof.
  destruct c as [[] [] [] [] [] [] [] []]; vm_compute; trivial;
    intros H; discriminate H.
Qed.

Lemma replace_each_same (cls : ascii -> bool) (by_ s : string) :
  all (fun c => negb (cls c)) s = true -> replace_each cls by_ s = s.
Proof.
  induction s as [|c s IH]; cbn; [reflexivity|].
  intros H. apply andb_true_iff in H as [Hc Hs].
  apply negb_true_iff in Hc. now rewrite Hc, IH.
Qed.

Lemma trimStart_same (s : string) :
  all (fun c => negb (is_space c)) s = true -> trimStart s = s.
Proof.
  destruct s as [|c s]; cbn; [reflexivity|].
  intros H. apply andb_true_iff in H as [Hc _].
  apply negb_true_iff in Hc. now rewrite Hc.
Qed.

Lemma trimEnd_same (s : string) :
  all (fun c => negb (is_space c)) s = true -> trimEnd s = s.
Proof.
  induction s as [|c s IH]; cbn; [reflexivity|].
  intros H. apply andb_true_iff in H as [Hc Hs].
  apply negb_true_iff in Hc. rewrite (IH Hs).
  destruct s; [now rewrite Hc | reflexivity].
Qed.

Lemma replace_runs_same (s : string) (in_run : bool) :
  all (fun c => negb (is_joiner c)) s = true -> replace_runs in_run s = s.
Proof.
  revert in_run. induction s as [|c s IH]; intros in_run; cbn;
    [reflexivity|].
  intros H. apply andb_true_iff in H as [Hc Hs].
  apply negb_true_iff in Hc. now rewrite Hc, IH.
Qed.

Lemma split_ws_one (s cur : string) (in_sep : bool) :
  all (fun c => negb (is_space c)) s = true ->
  split_ws in_sep cur s = [cur ++ s].
Proof.
  revert cur in_sep. induction s as [|c s IH]; intros cur in_sep; cbn.
  - intros _. f_equal. clear. induction cur; cbn; congruence.
  - intros H. apply andb_true_iff in H as [Hc Hs].
    apply negb_true_iff in Hc. rewrite Hc, IH by exact Hs.
    f_equal. clear. induction cur; cbn; congruence.
Qed.

(** A name made of letters and digits that starts with a capital letter is
    left as it is. *)
Lemma proper_name_kept (c : ascii) (rest : string) :
  is_upper c = true ->
  all is_alnum rest = true ->
  makeSafeComponentName (String c rest) = String c rest.
Proof.
  intros Hc Hrest.
  destruct (upper_facts c Hc) as [Hup Halpha].
  assert (Hal : all is_alnum (String c rest) = true).
  { cbn. unfold is_alnum at 1. now rewrite Halpha, Hrest. }
  assert (Hkept : all (fun x => negb (negb (is_kept x))) (String c rest) = true).
  { apply NamingFacts.all_impl with (p := is_alnum); [|exact Hal].
    intros x Hx. unfold is_kept. now rewrite Hx. }
  assert (Hsp : all (fun x => negb (is_space x)) (String c rest) = true).
  { apply NamingFacts.all_impl with (p := is_alnum); [|exact Hal].
    intros x Hx. now rewrite (alnum_not_space x Hx). }
  assert (Hjo : all (fun x => negb (is_joiner x)) (String c rest) = true).
  { apply NamingFacts.all_impl with (p := is_alnum); [|exact Hal].
    intros x Hx. now rewrite (alnum_not_joiner x Hx). }
  unfold makeSafeComponentName, safeIdentifier.
  rewrite (replace_each_same _ _ _ Hkept).
  unfold trim. rewrite (trimStart_same _ Hsp), (trimEnd_same _ Hsp).
  cbn [String.length Nat.ltb Nat.leb].
  unfold toPascalCase.
  rewrite (replace_runs_same _ _ Hjo), (split_ws_one _ _ _ Hsp).
  cbn [append filter nonempty map capitalize String.concat].
  rewrite Hup. cbn [String.length Nat.ltb Nat.leb starts_ident].
  now rewrite Halpha.
Qed.

(** The first code unit of a PascalCase text comes out of [toUpperCase]. *)
Lemma toPascalCase_head (s : string) :
  toPascalCase s = EmptyString
  \/ exists c c' rest,
       toPascalCase s = String c' rest /\ c' = toUpperCase1 c.
Proof.
  unfold toPascalCase.
  induction (split_ws false EmptyString (replace_runs false s))
    as [|p parts IH]; cbn [filter]; [now left|].
  destruct p as [|c t]; cbn [nonempty]; [exact IH|].
  right. exists c, (toUpperCase1 c).
  cbn [map capitalize].
  destruct (map capitalize (filter nonempty parts)) as [|q qs] eqn:E.
  - exists t. cbn. auto.
  - exists (t ++ EmptyString ++ String.concat EmptyString (q :: qs)).
    split; [reflexivity | reflexivity].
Qed.

Lemma makeSafeComponentName_upper (input : string) :
  exists c rest,
    makeSafeComponentName input = String c rest
    /\ is_upper c = true
    /\ all is_alnum rest = true.
Proof.
  pose proof (NamingFacts.makeSafeComponentName_alnum input) as Hal.
  unfold makeSafeComponentName in *.
  set (base := toPascalCase (safeIdentifier input)) in *.
  pose proof (NamingFacts.toPascalCase_alnum _
                (NamingFacts.safeIdentifier_kept input)) as Hbase.
  fold base in Hbase.
  destruct (toPascalCase_head (safeIdentifier input)) as [E|[c [c' [rest [E Hc']]]]];
    fold base in E; rewrite E in *.
  - cbn. exists "G"%char, "eneratedForm". auto.
  - cbn [String.length Nat.ltb Nat.leb] in *.
    cbn [all] in Hbase. apply andb_true_iff in Hbase as [Hc Hrest].
    cbn [starts_ident] in *.
    rewrite (alnum_not_underscore _ Hc), orb_false_r in *.
    destruct (is_alpha c') eqn:Ha.
    + exists c', rest. split; [reflexivity|]. split; [|exact Hrest].
      subst c'.
      destruct c as [[] [] [] [] [] [] [] []]; vm_compute in Ha |- *;
        trivial; discriminate.
    + exists "F"%char, ("orm" ++ String c' rest).
      split; [reflexivity|]. split; [reflexivity|].
      cbn. now rewrite Hc, Hrest.
Qed.

(** The component name always starts with a capital letter and goes on
    with letters and digits, as the name of a component must. *)
Theorem component_name_is_capitalised (form : FormDefinition) :
  exists c rest,
    componentName form = String c rest
    /\ is_upper c = true
    /\ all is_alnum rest = true.
Proof.
  apply makeSafeComponentName_upper.
Qed.

(** A name that is already proper, that is a capital letter followed by
    letters and digits, is kept as it is. *)
Theorem proper_component_name_unchanged (c : ascii) (rest : string) :
  is_upper c = true ->
  all is_alnum rest = true ->
  makeSafeComponentName (String c rest) = String c rest.
Proof.
  apply proper_name_kept.
Qed.

(** Making a name safe twice changes nothing more. *)
Theorem makeSafeComponentName_idempotent (input : string) :
  makeSafeComponentName (makeSafeComponentName input)
  = makeSafeComponentName input.
Proof.
  destruct (makeSafeComponentName_upper input) as [c [rest [E [Hc Hr]]]].
  rewrite E. now apply proper_name_kept.
Qed.

(** Text without a backslash, a backtick or a dollar sign is embedded as
    it is. *)
Theorem escape_plain_text_unchanged (s : string) :
  all (fun c => negb (Ascii.eqb c backslash || Ascii.eqb c backtick
                      || Ascii.eqb c dollar)) s = true ->
  escapeTemplateString s = s.
Proof.
  induction s as [|c s IH]; [reflexivity|].
  cbn [all]. intros H. apply andb_true_iff in H as [Hc Hs].
  rewrite EscapeFacts.escape_cons, (IH Hs). unfold escaped_unit.
  apply negb_true_iff in Hc.
  apply orb_false_iff in Hc as [Hc Hd]. apply orb_false_iff in Hc as [Hb Ht].
  now rewrite Hb, Ht, Hd.
Qed.

Lemma proper_component_name_unchanged_witness :
  makeSafeComponentName "ContactForm2" = "ContactForm2".
Proof.
  apply (proper_component_name_unchanged "C"%char "ontactForm2");
    reflexivity.
Defined.

Lemma escape_plain_text_unchanged_witness :
  escapeTemplateString "Contact us (2024)" = "Contact us (2024)".
Proof.
  apply (escape_plain_text_unchanged "Contact us (2024)"). reflexivity.
Defined.

End ExporterExtras.

(** ** The table of default values in the exported component *)

Module DefaultsTableFacts.
Import Str DefaultsTable.

Lemma append_assoc (a b c : string) : (a ++ b) ++ c = a ++ (b ++ c).
Proof.
  induction a as [|x a IH]; cbn; [reflexivity | now rewrite IH].
Qed.

(** Reading back what was written for one code unit. *)
Lemma read_quote_unit (c : ascii) (t : string) :
  read_body (quote_unit c ++ t) = cons_result c (read_body t).
Proof.
  destruct c as [[] [] [] [] [] [] [] []]; reflexivity.
Qed.

Lemma read_quote_units (s rest : string) :
  read_body (quote_units s ++ String dquote rest) = Some (s, rest).
Proof.
  induction s as [|c s IH]; [reflexivity|].
  cbn [quote_units]. rewrite append_assoc, read_quote_unit, IH.
  reflexivity.
Qed.

Lemma read_stringify (s rest : string) :
  read_literal (stringify s ++ rest) = Some (s, rest).
Proof.
  unfold stringify, read_literal. cbn [append].
  cbn [Ascii.eqb Bool.eqb dquote ascii_of_nat].
  change (Ascii.eqb dquote dquote) with true. cbv iota.
  rewrite append_assoc. apply read_quote_units.
Qed.

Lemma quote_unit_no_newline (c : ascii) :
  all (fun x => negb (Ascii.eqb x newline)) (quote_unit c) = true.
Proof.
  destruct c as [[] [] [] [] [] [] [] []]; reflexivity.
Qed.

Lemma quote_units_no_newline (s : string) :
  all (fun x => negb (Ascii.eqb x newline)) (quote_units s) = true.
Proof.
  induction s as [|c s IH]; [reflexivity|].
  cbn [quote_units].
  now rewrite NamingFacts.all_append, quote_unit_no_newline, IH.
Qed.

Lemma quote_unit_plain (c : ascii) :
  is_alnum c || Ascii.eqb c ReactTs.underscore = true ->
  quote_unit c = String c EmptyString.
Proof.
  destruct c as [[] [] [] [] [] [] [] []]; vm_compute; trivial;
    intros H; discriminate H.
Qed.

Lemma quote_units_plain (s : string) :
  all (fun c => is_alnum c || Ascii.eqb c ReactTs.underscore) s = true ->
  quote_units s = s.
Proof.
  induction s as [|c s IH]; [reflexivity|].
  cbn [all quote_units]. intros H. apply andb_true_iff in H as [Hc Hs].
  now rewrite (quote_unit_plain c Hc), IH.
Qed.

(** [JSON.stringify] of a string is a string literal that reads back as the
    string, whatever follows it. *)
Theorem stringify_reads_back (s rest : string) :
  read_literal (stringify s ++ rest) = Some (s, rest).
Proof.
  apply read_stringify.
Qed.

(** A field name the builder accepts is written between the quotation
    marks as it is, without any escape. *)
Theorem valid_name_needs_no_escape (name : string) :
  Builder.isValidFieldName name = true ->
  stringify name = String dquote (name ++ String dquote EmptyString).
Proof.
  unfold Builder.isValidFieldName, stringify.
  destruct name as [|c t]; [discriminate|].
  intros H. apply andb_true_iff in H as [Hc Ht].
  rewrite quote_units_plain; [reflexivity|].
  cbn [all]. rewrite Ht, andb_true_r.
  unfold is_alnum. now rewrite Hc.
Qed.

(** Each line of [DEFAULT_VALUES] is two spaces, the field name as a string
    literal that reads back as the name, and the default the renderer
    uses for the field: [false] for a checkbox, the empty string
    otherwise.  A line holds no line feed, so the table has one line per
    field. *)
Theorem initLine_shape (f : Field) :
  exists tail,
    initLine f = "  " ++ stringify (name f) ++ tail
    /\ read_literal (stringify (name f) ++ tail) = Some (name f, tail)
    /\ (Renderer.default_of f = VBool false -> tail = ": false,")
    /\ (Renderer.default_of f = VStr EmptyString ->
        tail = ": " ++ String dquote (String dquote ","))
    /\ all (fun x => negb (Ascii.eqb x newline)) (initLine f) = true.
Proof.
  unfold initLine, Renderer.default_of.
  assert (Hq : forall tail,
             all (fun x => negb (Ascii.eqb x newline)) tail = true ->
             all (fun x => negb (Ascii.eqb x newline))
               ("  " ++ stringify (name f) ++ tail) = true).
  { intros tail Ht. unfold stringify. cbn [append all].
    rewrite !NamingFacts.all_append, quote_units_no_newline, Ht.
    reflexivity. }
  destruct (String.eqb (type f) "checkbox").
  - exists ": false,". repeat split; try discriminate.
    + apply read_stringify.
    + apply Hq. reflexivity.
  - exists (": " ++ String dquote (String dquote ",")).
    repeat split; try discriminate.
    + apply read_stringify.
    + apply Hq. reflexivity.
Qed.

Lemma initLine_shape_witness :
  exists tail,
    DefaultsTable.initLine consentField
    = "  " ++ DefaultsTable.stringify "email" ++ tail
    /\ tail = ": false,".
Proof.
  destruct (initLine_shape consentField) as [tail [E [_ [Hf _]]]].
  exists tail. split; [exact E | apply Hf; reflexivity].
Defined.

Lemma valid_name_needs_no_escape_witness :
  stringify "fullName" = String dquote ("fullName" ++ String dquote EmptyString).
Proof.
  apply (valid_name_needs_no_escape "fullName"). reflexivity.
Defined.

End DefaultsTableFacts.

(** ** The builder's edits *)

Module BuilderFacts.
Import Str Builder.
Local Open Scope nat_scope.

Lemma string_of_nat_inj (a b : nat) :
  string_of_nat a = string_of_nat b -> a = b.
Proof.
  unfold string_of_nat. intros H.
  apply Unsigned.to_uint_inj.
  assert (E : NilEmpty.uint_of_string (NilEmpty.string_of_uint (Nat.to_uint a))
              = NilEmpty.uint_of_string (NilEmpty.string_of_uint (Nat.to_uint b)))
    by now rewrite H.
  rewrite !NilEmpty.usu in E. now injection E.
Qed.

Lemma string_of_uint_digits (d : Decimal.uint) :
  all is_digit (NilEmpty.string_of_uint d) = true.
Proof.
  induction d; cbn; auto.
Qed.

Lemma string_of_nat_nonempty (n : nat) : string_of_nat n <> EmptyString.
Proof.
  unfold string_of_nat. intros H.
  assert (E : NilEmpty.uint_of_string (NilEmpty.string_of_uint (Nat.to_uint n))
              = NilEmpty.uint_of_string EmptyString) by now rewrite H.
  rewrite NilEmpty.usu in E. cbn in E. injection E as E.
  pose proof (Unsigned.of_to n) as Hn. rewrite E in Hn. cbn in Hn.
  subst n. discriminate H.
Qed.

Lemma append_nonempty_neq (a b : string) : b <> EmptyString -> a <> a ++ b.
Proof.
  intros Hb H. apply Hb.
  induction a as [|x a IH]; cbn in H; [now symmetry|].
  injection H as H. auto.
Qed.

Lemma candidate_inj (base : string) (i j : nat) :
  candidate base i = candidate base j -> i = j.
Proof.
  destruct i as [|i], j as [|j]; cbn; intros H; try reflexivity.
  - exfalso. now apply (append_nonempty_neq base _ (string_of_nat_nonempty (S j))).
  - exfalso. symmetry in H.
    now apply (append_nonempty_neq base _ (string_of_nat_nonempty (S i))).
  - apply append_cancel_l in H. now apply string_of_nat_inj.
Qed.

Lemma has_In (names : list string) (n : string) :
  has names n = true <-> In n names.
Proof.
  apply SchemaExtras.existsb_eqb_In.
Qed.

(** What the loop returns, started on the [j]-th candidate: the first
    candidate from there on that is not taken. *)
Lemma uniqueName_some (fuel : nat) (names : list string) (base : string)
  (j : nat) (r : string) :
  uniqueName fuel names base (candidate base j) (S j) = Some r ->
  exists d,
    r = candidate base (j + d)
    /\ ~ In r names
    /\ forall e, e < d -> In (candidate base (j + e)) names.
Proof.
  revert j. induction fuel as [|fuel IH]; intros j; cbn [uniqueName].
  - destruct (has names (candidate base j)) eqn:E; [discriminate|].
    intros H. injection H as <-. exists 0. rewrite Nat.add_0_r.
    split; [reflexivity|]. split.
    + intros H. apply has_In in H. congruence.
    + intros e He. lia.
  - destruct (has names (candidate base j)) eqn:E.
    + change (base ++ string_of_nat (S j)) with (candidate base (S j)).
      intros H. destruct (IH (S j) H) as [d [Hr [Hn Hlt]]].
      exists (S d). rewrite Nat.add_succ_r. split; [exact Hr|].
      split; [exact Hn|].
      intros e He. destruct e as [|e].
      * rewrite Nat.add_0_r. now apply has_In.
      * rewrite Nat.add_succ_r. apply Hlt. lia.
    + intros H. injection H as <-. exists 0. rewrite Nat.add_0_r.
      split; [reflexivity|]. split.
      * intros H. apply has_In in H. congruence.
      * intros e He. lia.
Qed.

(** When the fuel runs out, every candidate tried was taken. *)
Lemma uniqueName_none (fuel : nat) (names : list string) (base : string)
  (j : nat) :
  uniqueName fuel names base (candidate base j) (S j) = None ->
  forall e, e <= fuel -> In (candidate base (j + e)) names.
Proof.
  revert j. induction fuel as [|fuel IH]; intros j; cbn [uniqueName].
  - destruct (has names (candidate base j)) eqn:E; [|discriminate].
    intros _ e He. replace e with 0 by lia. rewrite Nat.add_0_r.
    now apply has_In.
  - destruct (has names (candidate base j)) eqn:E; [|discriminate].
    change (base ++ string_of_nat (S j)) with (candidate base (S j)).
    intros H e He. destruct e as [|e].
    + rewrite Nat.add_0_r. now apply has_In.
    + rewrite Nat.add_succ_r. apply (IH (S j) H). lia.
Qed.

(** As many turns as there are names are enough. *)
Lemma uniqueName_terminates (names : list string) (base : string) :
  exists r,
    uniqueName (List.length names) names base (candidate base 0) 1 = Some r.
Proof.
  destruct (uniqueName (List.length names) names base (candidate base 0) 1)
    as [r|] eqn:E; [eauto|].
  exfalso.
  pose proof (uniqueName_none _ _ _ _ E) as Hall.
  set (cands := map (candidate base) (seq 0 (S (List.length names)))).
  assert (Hnd : NoDup cands).
  { apply Finite.Injective_map_NoDup; [|apply seq_NoDup].
    intros a b. apply candidate_inj. }
  assert (Hincl : incl cands names).
  { intros x Hx. apply in_map_iff in Hx as [e [<- He]].
    apply in_seq in He. apply (Hall e). lia. }
  pose proof (NoDup_incl_length Hnd Hincl) as Hlen.
  unfold cands in Hlen. rewrite length_map, length_seq in Hlen. lia.
Qed.

Lemma baseName_valid (type : string) :
  isValidFieldName (baseName type) = true.
Proof.
  unfold baseName. destruct (String.eqb type "email"); reflexivity.
Qed.

Lemma candidate_valid (type : string) (j : nat) :
  isValidFieldName (candidate (baseName type) j) = true.
Proof.
  destruct j as [|j]; [apply baseName_valid|].
  cbn [candidate]. pose proof (baseName_valid type) as Hb.
  unfold isValidFieldName in *.
  destruct (baseName type) as [|c t]; [discriminate|].
  cbn [append]. apply andb_true_iff in Hb as [Hc Ht].
  rewrite Hc, NamingFacts.all_append, Ht. cbn [andb].
  apply NamingFacts.all_impl with (p := is_digit);
    [|apply string_of_uint_digits].
  intros x Hx. unfold is_alnum. rewrite Hx. now rewrite orb_true_r.
Qed.

(** What [addField] does. *)
Lemma addField_outcome (fresh_id now type : string) (form : FormDefinition) :
  exists k,
    addField fresh_id now type form
    = Some (with_fields form
              (fields form
               ++ [newField fresh_id (candidate (baseName type) k) type])%list
              now)
    /\ ~ In (candidate (baseName type) k) (map name (fields form))
    /\ forall e, e < k ->
                 In (candidate (baseName type) e) (map name (fields form)).
Proof.
  unfold addField. cbv zeta.
  destruct (uniqueName_terminates (map name (fields form)) (baseName type))
    as [r Hr].
  cbn [candidate] in Hr. rewrite Hr.
  destruct (uniqueName_some _ _ _ 0 r Hr) as [d [E [Hn Hlt]]].
  cbn [Nat.add] in E, Hlt. subst r.
  exists d. auto.
Qed.

(** [addField] always finds a name: it appends one field, named by the
    first of [base], [base1], [base2], ... that no field carries yet (with
    [base] being [email] for an email field and [field] otherwise), and
    leaves the other fields as they are.  The new name is one the builder
    accepts, and names that were all different stay so. *)
Theorem addField_appends_fresh_name (fresh_id now type : string)
  (form : FormDefinition) :
  exists k form',
    addField fresh_id now type form = Some form'
    /\ fields form'
       = (fields form
          ++ [newField fresh_id (candidate (baseName type) k) type])%list
    /\ ~ In (candidate (baseName type) k) (map name (fields form))
    /\ (forall e, e < k ->
                  In (candidate (baseName type) e) (map name (fields form)))
    /\ isValidFieldName (candidate (baseName type) k) = true
    /\ (NoDup (map name (fields form)) -> NoDup (map name (fields form'))).
Proof.
  destruct (addField_outcome fresh_id now type form) as [k [E [Hn Hlt]]].
  exists k. eexists. split; [exact E|]. cbn [fields with_fields].
  split; [reflexivity|]. split; [exact Hn|]. split; [exact Hlt|].
  split; [apply candidate_valid|].
  intros Hnd. rewrite map_app. cbn [map name newField].
  apply NoDup_app; [exact Hnd | repeat constructor; intros [] |].
  intros x Hx [<-|[]]. now apply Hn.
Qed.

Lemma addField_appends_fresh_name_witness :
  exists form',
    addField "f_1" "2024-05-01T10:00:00.000Z" "email"
      (mkForm "Signup" [nameField; emailField]) = Some form'
    /\ map name (fields form') = ["name"; "email"; "email1"].
Proof.
  destruct (addField_appends_fresh_name "f_1" "2024-05-01T10:00:00.000Z"
              "email" (mkForm "Signup" [nameField; emailField]))
    as [k [form' [E _]]].
  exists form'. split; [exact E|].
  vm_compute in E. injection E as <-. reflexivity.
Defined.

Lemma swap_cons {A} (i j : nat) (x : A) (l : list A) :
  swap (S i) (S j) (x :: l) = x :: swap i j l.
Proof.
  unfold swap. cbn [nth_error].
  destruct (nth_error l i), (nth_error l j); reflexivity.
Qed.

Lemma swap_adjacent {A} (pre post : list A) (x y : A) :
  swap (List.length pre) (S (List.length pre)) (pre ++ x :: y :: post)%list
  = (pre ++ y :: x :: post)%list
  /\ swap (S (List.length pre)) (List.length pre) (pre ++ x :: y :: post)%list
     = (pre ++ y :: x :: post)%list.
Proof.
  induction pre as [|p pre [IH1 IH2]]; [split; reflexivity|].
  cbn [List.length app]. rewrite !swap_cons, IH1, IH2. auto.
Qed.

Lemma findIndex_split (target : string) (l : list Field) (n : nat) :
  findIndex target l = Some n ->
  exists pre f post,
    l = (pre ++ f :: post)%list
    /\ List.length pre = n
    /\ id f = target
    /\ forall g, In g pre -> String.eqb (id g) target = false.
Proof.
  revert n. induction l as [|x l IH]; intros n; cbn [findIndex];
    [discriminate|].
  destruct (String.eqb_spec (id x) target) as [E|E].
  - intros H. injection H as <-. exists [], x, l.
    repeat split; auto. intros g [].
  - destruct (findIndex target l) as [m|]; [|discriminate].
    intros H. injection H as <-.
    destruct (IH m eq_refl) as [pre [f [post [-> [Hl [Hf Hpre]]]]]].
    exists (x :: pre), f, post. cbn [List.length app].
    repeat split; auto.
    intros g [<-|Hg]; [now apply String.eqb_neq | auto].
Qed.

Lemma findIndex_found (target : string) (pre post : list Field) (f : Field) :
  id f = target ->
  (forall g, In g pre -> String.eqb (id g) target = false) ->
  findIndex target (pre ++ f :: post)%list = Some (List.length pre).
Proof.
  intros Hf. induction pre as [|x pre IH]; intros Hpre; cbn.
  - rewrite Hf, String.eqb_refl. reflexivity.
  - rewrite (Hpre x (or_introl eq_refl)), IH; [reflexivity|].
    intros g Hg. apply Hpre. now right.
Qed.

(** What a move up does: the field found at place [t + 1] changes places
    with the one before it. *)
Lemma moveField_up_outcome (now target : string) (form : FormDefinition)
  (t : nat) :
  findIndex target (fields form) = Some (S t) ->
  exists pre y f post,
    fields form = (pre ++ y :: f :: post)%list
    /\ List.length pre = t
    /\ id f = target
    /\ (forall g, In g pre -> String.eqb (id g) target = false)
    /\ moveField now target up form
       = with_fields form (pre ++ f :: y :: post)%list now.
Proof.
  intros H. unfold moveField. rewrite H.
  destruct (findIndex_split _ _ _ H) as [pre [f [post [E [Hl [Hf Hpre]]]]]].
  destruct (exists_last (l := pre)) as [pre' [y Ey]].
  { intros ->. discriminate Hl. }
  subst pre. rewrite length_app in Hl. cbn in Hl.
  assert (Ht : List.length pre' = t) by lia.
  exists pre', y, f, post. rewrite E, <- app_assoc. cbn [app].
  repeat split; auto.
  - intros g Hg. apply Hpre. apply in_or_app. now left.
  - rewrite <- Ht. now rewrite (proj2 (swap_adjacent pre' post y f)).
Qed.

Lemma moveField_down_outcome (now target : string) (form : FormDefinition)
  (n : nat) :
  findIndex target (fields form) = Some n ->
  S n < List.length (fields form) ->
  exists pre f y post,
    fields form = (pre ++ f :: y :: post)%list
    /\ List.length pre = n
    /\ moveField now target down form
       = with_fields form (pre ++ y :: f :: post)%list now.
Proof.
  intros H Hlen. unfold moveField. rewrite H.
  apply Nat.ltb_lt in Hlen as Hb. rewrite Hb.
  destruct (findIndex_split _ _ _ H) as [pre [f [post [E [Hl [Hf Hpre]]]]]].
  rewrite E in Hlen. rewrite length_app in Hlen. cbn in Hlen.
  destruct post as [|y post]; [cbn in Hlen; lia|].
  exists pre, f, y, post. rewrite E. repeat split; auto.
  rewrite <- Hl. now rewrite (proj1 (swap_adjacent pre post f y)).
Qed.

Lemma moveField_permutation (now target : string) (direction : Direction)
  (form : FormDefinition) :
  Permutation (fields form) (fields (moveField now target direction form)).
Proof.
  destruct (findIndex target (fields form)) as [n|] eqn:H.
  2:{ unfold moveField. rewrite H. reflexivity. }
  destruct direction.
  - destruct n as [|t].
    + unfold moveField. rewrite H. reflexivity.
    + destruct (moveField_up_outcome now _ _ _ H)
        as [pre [y [f [post [E [_ [_ [_ ->]]]]]]]].
      rewrite E. cbn [fields with_fields].
      apply Permutation_app_head. apply perm_swap.
  - destruct (Nat.ltb_spec (S n) (List.length (fields form))) as [Hl|Hl].
    + destruct (moveField_down_outcome now _ _ _ H Hl)
        as [pre [f [y [post [E [_ ->]]]]]].
      rewrite E. cbn [fields with_fields].
      apply Permutation_app_head. apply perm_swap.
    + unfold moveField. rewrite H.
      apply Nat.ltb_ge in Hl. rewrite Hl. reflexivity.
Qed.

Lemma filter_names_NoDup (p : Field -> bool) (l : list Field) :
  NoDup (map name l) -> NoDup (map name (filter p l)).
Proof.
  induction l as [|x l IH]; cbn; [auto|].
  intros H. inversion H as [|? ? Hx Hl]; subst.
  destruct (p x); cbn; [|auto].
  constructor; [|auto].
  intros Hin. apply Hx. apply in_map_iff in Hin as [g [E Hg]].
  apply filter_In in Hg as [Hg _]. rewrite <- E. now apply in_map.
Qed.

(** Moving a field only reorders the form: the fields after the move are a
    permutation of those before, so none is lost or doubled, and names
    that were all different stay so. *)
Theorem moveField_keeps_the_fields (now target : string)
  (direction : Direction) (form : FormDefinition) :
  Permutation (fields form) (fields (moveField now target direction form))
  /\ List.length (fields (moveField now target direction form))
     = List.length (fields form)
  /\ (NoDup (map name (fields form)) ->
      NoDup (map name (fields (moveField now target direction form)))).
Proof.
  pose proof (moveField_permutation now target direction form) as P.
  split; [exact P|]. split.
  - symmetry. now apply Permutation_length.
  - intros H. apply (Permutation_NoDup (l := map name (fields form)));
      [now apply Permutation_map | exact H].
Qed.

(** A field that is not the first moves one place up, and moving it down
    afterwards puts every field back where it was. *)
Theorem moveField_up_then_down (now now' target : string)
  (form : FormDefinition) (t : nat) :
  findIndex target (fields form) = Some (S t) ->
  findIndex target (fields (moveField now target up form)) = Some t
  /\ fields (moveField now' target down (moveField now target up form))
     = fields form.
Proof.
  intros H.
  destruct (moveField_up_outcome now _ _ _ H)
    as [pre [y [f [post [E [Hl [Hf [Hpre ->]]]]]]]].
  assert (Hidx : findIndex target
                   (fields (with_fields form (pre ++ f :: y :: post)%list now))
                 = Some t).
  { cbn [fields with_fields]. rewrite <- Hl. now apply findIndex_found. }
  split; [exact Hidx|].
  assert (Hlen : S t < List.length
                         (fields (with_fields form
                                    (pre ++ f :: y :: post)%list now))).
  { cbn [fields with_fields]. rewrite length_app. cbn. lia. }
  destruct (moveField_down_outcome now' _ _ _ Hidx Hlen)
    as [pre2 [f2 [y2 [post2 [E2 [Hl2 ->]]]]]].
  cbn [fields with_fields] in E2 |- *.
  assert (Hsame : pre2 = pre /\ f2 :: y2 :: post2 = f :: y :: post).
  { clear - E2 Hl Hl2. subst t.
    revert pre2 Hl2 E2. induction pre as [|a pre IH]; intros pre2 Hl2 E2.
    - destruct pre2; [cbn in E2; auto | discriminate Hl2].
    - destruct pre2 as [|b pre2]; [discriminate Hl2|].
      cbn in E2, Hl2. injection E2 as <- E2. injection Hl2 as Hl2.
      destruct (IH pre2 Hl2 E2) as [-> ->]. auto. }
  destruct Hsame as [-> Hrest]. injection Hrest as -> -> ->.
  now rewrite E.
Qed.

(** Deleting removes exactly the fields with the given id and keeps the
    others in their order; names that were all different stay so, and a
    form without such a field keeps all its fields. *)
Theorem deleteField_removes_by_id (now target : string)
  (form : FormDefinition) :
  (forall f, In f (fields (deleteField now target form))
             <-> In f (fields form) /\ id f <> target)
  /\ (NoDup (map name (fields form)) ->
      NoDup (map name (fields (deleteField now target form))))
  /\ (findIndex target (fields form) = None ->
      fields (deleteField now target form) = fields form).
Proof.
  cbn [deleteField fields with_fields]. split; [|split].
  - intros f. rewrite filter_In, negb_true_iff, String.eqb_neq. tauto.
  - apply filter_names_NoDup.
  - induction (fields form) as [|x l IH]; cbn [findIndex filter];
      [reflexivity|].
    destruct (String.eqb (id x) target); [discriminate|].
    destruct (findIndex target l); [discriminate|].
    intros _. cbn [negb]. now rewrite IH.
Qed.

Lemma moveField_up_then_down_witness :
  map name
    (fields (moveField "t2" "email" down
               (moveField "t1" "email" up
                  (mkForm "Signup" [nameField; emailField; ageField]))))
  = ["name"; "email"; "age"].
Proof.
  rewrite (proj2 (moveField_up_then_down "t1" "t2" "email"
                    (mkForm "Signup" [nameField; emailField; ageField])
                    0 eq_refl)).
  reflexivity.
Defined.

(** [updateField] does not look at the other fields: renaming a field to
    a name that a field with another id already carries leaves the form
    with two fields of that name. *)
Theorem updateField_can_collide (now target : string) (patch : FieldPatch)
  (form : FormDefinition) (f g : Field) (n : string) :
  In f (fields form) ->
  In g (fields form) ->
  id f = target ->
  id g <> target ->
  patch_name patch = Some n ->
  name g = n ->
  ~ NoDup (map name (fields (updateField now target patch form))).
Proof.
  intros Hf Hg Hidf Hidg Hp Hn Hnd.
  cbn [updateField fields with_fields] in Hnd.
  set (upd := fun x : Field =>
                if String.eqb (id x) target then apply_patch x patch else x)
    in Hnd.
  assert (Hupf : name (upd f) = n).
  { unfold upd. rewrite Hidf, String.eqb_refl. cbn. now rewrite Hp. }
  assert (Hupg : name (upd g) = n).
  { unfold upd. apply String.eqb_neq in Hidg. now rewrite Hidg. }
  apply in_split in Hf as [l1 [l2 E]]. rewrite E in Hg, Hnd.
  rewrite !map_app in Hnd. cbn [map] in Hnd. rewrite Hupf in Hnd.
  apply NoDup_remove_2 in Hnd. apply Hnd.
  apply in_app_or in Hg as [Hg|[Hg|Hg]].
  - apply in_or_app. left. rewrite <- Hupg. now apply in_map, in_map.
  - subst g. now elim Hidg.
  - apply in_or_app. right. rewrite <- Hupg. now apply in_map, in_map.
Qed.

Lemma updateField_can_collide_witness :
  ~ NoDup
      (map name
         (fields (updateField "t1" "name"
                    {| patch_id := None; patch_name := Some "email";
                       patch_label := None; patch_type := None;
                       patch_required := None; patch_helperText := None;
                       patch_placeholder := None; patch_rules := None |}
                    (mkForm "Signup" [nameField; emailField])))).
Proof.
  apply (updateField_can_collide "t1" "name" _
           (mkForm "Signup" [nameField; emailField])
           nameField emailField "email");
    [left; reflexivity | right; left; reflexivity | reflexivity
    | discriminate | reflexivity | reflexivity].
Defined.

Lemma moveField_keeps_the_fields_witness :
  NoDup
    (map name
       (fields (moveField "t1" "email" up
                  (mkForm "Signup" [nameField; emailField; ageField])))).
Proof.
  apply (moveField_keeps_the_fields "t1" "email" up
           (mkForm "Signup" [nameField; emailField; ageField])).
  repeat constructor; cbn; intuition discriminate.
Defined.

Lemma deleteField_removes_by_id_witness :
  fields (deleteField "t1" "phone"
            (mkForm "Signup" [nameField; emailField]))
  = [nameField; emailField].
Proof.
  apply (deleteField_removes_by_id "t1" "phone"
           (mkForm "Signup" [nameField; emailField])).
  reflexivity.
Defined.

End BuilderFacts.

(** ** The name of a downloaded file *)

Module ExportPageFacts.
Import Str ExportPage.


Lemma slug_not_dash (c : ascii) : is_slug c = true -> Ascii.eqb c dash = false.
Proof.
  destruct c as [[] [] [] [] [] [] [] []]; vm_compute; trivial;
    intros H; discriminate H.
Qed.

Lemma dash_runs_inv (s : string) (in_run : bool) :
  all (fun c => is_slug c || Ascii.eqb c dash) (dash_runs in_run s) = true
  /\ no_double_dash (dash_runs in_run s) = true
  /\ (in_run = true -> starts_with_dash (dash_runs in_run s) = false).
Proof.
  revert in_run. induction s as [|c t IH]; intros in_run;
    cbn [dash_runs]; [auto|].
  destruct (is_slug c) eqn:Hc.
  - destruct (IH false) as [Ha [Hn _]].
    pose proof (slug_not_dash c Hc) as Hd.
    cbn [all starts_with_dash]. rewrite Hc, Ha, Hd.
    repeat split; auto.
    cbn [no_double_dash]. destruct (dash_runs false t); [reflexivity|].
    now rewrite Hd, Hn.
  - destruct (IH true) as [Ha [Hn Hs]]. specialize (Hs eq_refl).
    destruct in_run; [auto|].
    cbn [all]. rewrite Ha. repeat split; [|discriminate].
    cbn [no_double_dash]. destruct (dash_runs true t) as [|d u];
      [reflexivity|].
    cbn [starts_with_dash] in Hs. now rewrite Hs, Hn, andb_false_r.
Qed.

Lemma strip_last_dash_head (c : ascii) (t : string) :
  (strip_last_dash (String c t) = EmptyString
   /\ Ascii.eqb c dash = true /\ t = EmptyString)
  \/ exists u, strip_last_dash (String c t) = String c u.
Proof.
  destruct t as [|c' t']; cbn [strip_last_dash].
  - destruct (Ascii.eqb c dash); [left; auto | right; eauto].
  - right. eauto.
Qed.

Lemma strip_last_dash_inv (s : string) :
  all (fun c => is_slug c || Ascii.eqb c dash) s = true ->
  no_double_dash s = true ->
  all (fun c => is_slug c || Ascii.eqb c dash) (strip_last_dash s) = true
  /\ no_double_dash (strip_last_dash s) = true
  /\ ends_with_dash (strip_last_dash s) = false
  /\ (starts_with_dash s = false ->
      starts_with_dash (strip_last_dash s) = false).
Proof.
  induction s as [|c t IH]; [cbn; auto|].
  intros Ha Hn. cbn [all] in Ha. apply andb_true_iff in Ha as [Hc Ht].
  destruct t as [|c' t'].
  - cbn [strip_last_dash]. destruct (Ascii.eqb c dash) eqn:Hd.
    + cbn. auto.
    + cbn [all no_double_dash ends_with_dash starts_with_dash].
      rewrite Hd, Hc. auto.
  - assert (Hn' : negb (Ascii.eqb c dash && Ascii.eqb c' dash) = true
                  /\ no_double_dash (String c' t') = true).
    { cbn [no_double_dash] in Hn. now apply andb_true_iff in Hn. }
    destruct Hn' as [Hcc Hnt].
    destruct (IH Ht Hnt) as [Ha' [Hn2 [He Hs]]].
    change (strip_last_dash (String c (String c' t')))
      with (String c (strip_last_dash (String c' t'))).
    destruct (strip_last_dash_head c' t') as [[E [Hd' ->]]|[u E]];
      rewrite E in *.
    + rewrite Hd', andb_true_r in Hcc. apply negb_true_iff in Hcc.
      cbn. rewrite Hc, Hcc. auto.
    + split; [|split; [|split]].
      * change (all (fun c => is_slug c || Ascii.eqb c dash) (String c (String c' u)))
          with ((is_slug c || Ascii.eqb c dash) && all (fun c => is_slug c || Ascii.eqb c dash) (String c' u)).
        now rewrite Hc, Ha'.
      * change (no_double_dash (String c (String c' u)))
          with (negb (Ascii.eqb c dash && Ascii.eqb c' dash)
                && no_double_dash (String c' u)).
        now rewrite Hcc, Hn2.
      * exact He.
      * cbn [starts_with_dash]. auto.
Qed.

Lemma strip_dashes_inv (s : string) :
  all (fun c => is_slug c || Ascii.eqb c dash) s = true ->
  no_double_dash s = true ->
  strip_dashes s = EmptyString \/ is_slug_text (strip_dashes s) = true.
Proof.
  intros Ha Hn. unfold strip_dashes.
  destruct s as [|c t]; [now left|].
  assert (Hgo : forall x,
             all (fun c => is_slug c || Ascii.eqb c dash) x = true -> no_double_dash x = true ->
             starts_with_dash x = false ->
             strip_last_dash x = EmptyString
             \/ is_slug_text (strip_last_dash x) = true).
  { intros x Hx Hnx Hsx.
    destruct (strip_last_dash_inv x Hx Hnx) as [H1 [H2 [H3 H4]]].
    specialize (H4 Hsx).
    destruct (strip_last_dash x) as [|d u] eqn:E; [now left|].
    right. unfold is_slug_text.
    now rewrite H1, H2, H3, H4. }
  destruct (Ascii.eqb c dash) eqn:Hd.
  - cbn [all] in Ha. apply andb_true_iff in Ha as [_ Ht].
    apply Hgo; [exact Ht | |].
    + destruct t; [reflexivity|]. cbn [no_double_dash] in Hn.
      now apply andb_true_iff in Hn.
    + destruct t as [|c' t']; [reflexivity|]. cbn [no_double_dash] in Hn.
      apply andb_true_iff in Hn as [Hcc _]. rewrite Hd in Hcc.
      cbn [andb starts_with_dash] in *. now apply negb_true_iff in Hcc.
  - apply Hgo; auto.
Qed.

(** The base of a file name is always a slug: at least one character,
    only [a-z], [0-9] and single dashes, no dash at either end; the file
    name is that base followed by the extension of the format. *)
Theorem filename_is_a_slug (form : FormDefinition) (format : ExportFormat) :
  is_slug_text (safeBase form) = true
  /\ exists ext,
       filename form format = safeBase form ++ ext
       /\ In ext [".tsx"; ".schema.json"; ".json"].
Proof.
  split.
  - unfold safeBase.
    set (s := toLowerCase _).
    destruct (dash_runs_inv s false) as [Ha [Hn _]].
    destruct (strip_dashes_inv _ Ha Hn) as [E|E].
    + rewrite E. reflexivity.
    + unfold ReactTs.or_else at 1.
      destruct (strip_dashes (dash_runs false s)); [reflexivity | exact E].
  - destruct format; cbn [filename]; eexists; split; try reflexivity;
      cbn; auto.
Qed.

End ExportPageFacts.

(** ** The toast store *)

Module ToastFacts.
Import Toasts.
Local Open Scope nat_scope.

Lemma filter_length_le {A} (p : A -> bool) (l : list A) :
  List.length (filter p l) <= List.length l.
Proof.
  induction l as [|x l IH]; cbn; [lia|]. destruct (p x); cbn; lia.
Qed.

(** However [toast], [dismiss] and [dismissAll] are called, the store never
    holds more than five toasts. *)
Theorem store_never_exceeds_five (toasts : list ToastItem) :
  reachable toasts -> List.length toasts <= 5.
Proof.
  induction 1 as [|toasts toasts' _ IH Hstep]; [cbn; lia|].
  destruct Hstep.
  - unfold toast. rewrite length_firstn. lia.
  - unfold dismiss. pose proof (filter_length_le
      (fun t => negb (String.eqb (item_id t) target)) toasts). lia.
  - cbn. lia.
Qed.

(** After [toast] the new item is the first of the store, and after
    [dismiss] no item of the store carries the dismissed id. *)
Theorem toast_first_dismiss_gone (fresh_id target : string) (now : Num)
  (input : ToastInput) (toasts : list ToastItem) :
  hd_error (toast fresh_id now input toasts)
  = Some (make_item fresh_id now input)
  /\ forall t, In t (dismiss target toasts) -> item_id t <> target.
Proof.
  split; [reflexivity|].
  intros t Ht. unfold dismiss in Ht. apply filter_In in Ht as [_ Ht].
  apply negb_true_iff in Ht. now apply String.eqb_neq.
Qed.

Lemma store_never_exceeds_five_witness :
  List.length
    (toast "t_2" (of_Z 2) {| title := Some "Saved"; description := None;
                             variant := None; duration := None |}
       (toast "t_1" (of_Z 1) {| title := Some "Added"; description := None;
                                variant := None; duration := None |} []))
  <= 5.
Proof.
  apply (store_never_exceeds_five _).
  eapply reach_step; [eapply reach_step; [apply reach_init|]|];
    apply step_toast.
Defined.

End ToastFacts.
